(** * rebasebot: GitHub helper classes ([rebasebot/github.py])

    A shallow embedding of [parse_github_branch] and of the
    [GithubAppProvider] class, followed by the properties of the
    natural-language specification that concern them.

    Conventions of the embedding.
    - A Python [str] is a [string]; its characters are the code points
      0..255.  A Python [bytes] is a [bytes], a list of [Byte.byte]; a
      Python [int] is a [Z].
    - An [Optional[T]] is an [option T]; [None] is [None].
    - A call that may raise returns a [result]; the exceptions are the
      constructors of [exn] and carry the message of the source.
    - The methods of the provider pass the instance and the outside world
      (the remote API and the log) explicitly. *)

From Stdlib Require Import String Ascii List ZArith Bool Lia.
From Stdlib Require Strings.Byte.
Import ListNotations.
Local Open Scope string_scope.

(** ** Exceptions and results *)

Inductive exn : Type :=
| ValueError (msg : string)
| Exception (msg : string)               (* [builtins.Exception(msg)] *)
| AttributeError (msg : string)
| AssertionError (msg : string)
| UnknownObjectException (msg : string)  (* the API client's "not found" *)
| GithubException (msg : string).        (* another error of the API client *)

Inductive result (A : Type) : Type :=
| Ok (a : A)
| Raise (e : exn).

Arguments Ok {A} a.
Arguments Raise {A} e.

(** ** Strings *)

Module Str.

Definition code (c : ascii) : N := N_of_ascii c.

Definition chr_eqb (a b : ascii) : bool := Ascii.eqb a b.

Definition newline : ascii := "010"%char.
Definition tab : ascii := "009"%char.
Definition cr : ascii := "013"%char.

(** [all p s]: every character of [s] satisfies [p]. *)
Fixpoint all (p : ascii -> bool) (s : string) : bool :=
  match s with
  | EmptyString => true
  | String c r => p c && all p r
  end.

(** [c in s] *)
Fixpoint contains (c : ascii) (s : string) : bool :=
  match s with
  | EmptyString => false
  | String d r => chr_eqb c d || contains c r
  end.

(** [span p s]: the longest prefix of [s] whose characters satisfy [p],
    and the rest of [s]. *)
Fixpoint span (p : ascii -> bool) (s : string) : string * string :=
  match s with
  | EmptyString => (EmptyString, EmptyString)
  | String c r =>
      if p c then let (a, b) := span p r in (String c a, b)
      else (EmptyString, s)
  end.

(** [s.lstrip(chars)] for the set of characters [p]. *)
Fixpoint lstrip (p : ascii -> bool) (s : string) : string :=
  match s with
  | EmptyString => EmptyString
  | String c r => if p c then lstrip p r else s
  end.

(** Removes every character satisfying [p]. *)
Fixpoint remove (p : ascii -> bool) (s : string) : string :=
  match s with
  | EmptyString => EmptyString
  | String c r => if p c then remove p r else String c (remove p r)
  end.

(** [s.removeprefix(prefix)] *)
Fixpoint strip_prefix (prefix s : string) : option string :=
  match prefix, s with
  | EmptyString, _ => Some s
  | String a p, String b r => if chr_eqb a b then strip_prefix p r else None
  | String _ _, EmptyString => None
  end.

Definition removeprefix (prefix s : string) : string :=
  match strip_prefix prefix s with
  | Some r => r
  | None => s
  end.

Definition is_empty (s : string) : bool :=
  match s with EmptyString => true | String _ _ => false end.

Definition is_upper (c : ascii) : bool := ((65 <=? code c) && (code c <=? 90))%N.
Definition is_lower (c : ascii) : bool := ((97 <=? code c) && (code c <=? 122))%N.
Definition is_digit (c : ascii) : bool := ((48 <=? code c) && (code c <=? 57))%N.

(** [c.isascii() and c.isalpha()] *)
Definition is_ascii_alpha (c : ascii) : bool := is_upper c || is_lower c.

(** [c.lower()] on the characters a scheme is made of. *)
Definition lower_chr (c : ascii) : ascii :=
  if is_upper c then ascii_of_N (code c + 32) else c.

Fixpoint lower (s : string) : string :=
  match s with
  | EmptyString => EmptyString
  | String c r => String (lower_chr c) (lower r)
  end.

End Str.

(** ** [urllib.parse.urlparse]

    The source reads the [scheme] and the [netloc] of the parse result only,
    so the model computes these two (as CPython 3.11 does, [urlsplit]) and
    leaves out path, params, query and fragment, which cannot raise. *)

Record ParseResult : Type := mkParseResult {
  scheme : string;
  netloc : string
}.

Module Urllib.

(** [c in _WHATWG_C0_CONTROL_OR_SPACE] *)
Definition c0_control_or_space (c : ascii) : bool := (Str.code c <=? 32)%N.

(** [c in _UNSAFE_URL_BYTES_TO_REMOVE] *)
Definition unsafe_url_byte (c : ascii) : bool :=
  Str.chr_eqb c Str.tab || Str.chr_eqb c Str.cr || Str.chr_eqb c Str.newline.

(** [c in scheme_chars] *)
Definition scheme_char (c : ascii) : bool :=
  Str.is_lower c || Str.is_upper c || Str.is_digit c
  || Str.chr_eqb c "+" || Str.chr_eqb c "-" || Str.chr_eqb c ".".

Definition not_colon (c : ascii) : bool := negb (Str.chr_eqb c ":").

(** The scheme test of [urlsplit]:
    [i = url.find(':')], then, when [i > 0], the first character is an
    ASCII letter and every character of [url[:i]] is a scheme character,
    the pair [(url[:i].lower(), url[i+1:])]; otherwise [('', url)]. *)
Definition split_scheme (url : string) : string * string :=
  match Str.span not_colon url with
  | (String c0 pre, String _ rest) =>
      if Str.is_ascii_alpha c0 && Str.all scheme_char (String c0 pre)
      then (Str.lower (String c0 pre), rest)
      else (EmptyString, url)
  | _ => (EmptyString, url)
  end.

Definition netloc_delim (c : ascii) : bool :=
  Str.chr_eqb c "/" || Str.chr_eqb c "?" || Str.chr_eqb c "#".

(** [_splitnetloc(url, 2)[0]] for a [url] that starts with [//]:
    [r] is [url[2:]]. *)
Definition splitnetloc (r : string) : string :=
  fst (Str.span (fun c => negb (netloc_delim c)) r).

Section Urlsplit.

(** [_check_bracketed_netloc], which validates a bracketed host with the
    [ipaddress] module: [None] when it returns, [Some msg] when it
    raises [ValueError(msg)]. *)
Variable check_bracketed_netloc : string -> option string.

(** [_checknetloc] returns at once for an empty or ASCII netloc; for
    another one it raises only if the NFKC form of the netloc contains
    one of [/?#@:], which holds for no code point below 256. *)
Definition checknetloc (n : string) : option string := None.

Definition urlparse (url0 : string) : result ParseResult :=
  let url := Str.lstrip c0_control_or_space url0 in
  let url := Str.remove unsafe_url_byte url in
  let (sch, url) := split_scheme url in
  match url with
  | String "/" (String "/" r) =>
      let n := splitnetloc r in
      let open := Str.contains "[" n in
      let close := Str.contains "]" n in
      if (open && negb close) || (close && negb open)
      then Raise (ValueError "Invalid IPv6 URL")
      else
        match (if open && close then check_bracketed_netloc n else None) with
        | Some msg => Raise (ValueError msg)
        | None =>
            match checknetloc n with
            | Some msg => Raise (ValueError msg)
            | None => Ok (mkParseResult sch n)
            end
        end
  | _ =>
      match checknetloc EmptyString with
      | Some msg => Raise (ValueError msg)
      | None => Ok (mkParseResult sch EmptyString)
      end
  end.

End Urlsplit.

End Urllib.

(** ** [GitHubBranch] and [parse_github_branch] *)

Record GitHubBranch : Type := mkGitHubBranch {
  url : string;
  ns : string;
  name : string;
  branch : string
}.

Module Regex.

Definition not_slash (c : ascii) : bool := negb (Str.chr_eqb c "/").
Definition not_colon (c : ascii) : bool := negb (Str.chr_eqb c ":").
(** [.] without [re.DOTALL]: any character but a newline. *)
Definition dot (c : ascii) : bool := negb (Str.chr_eqb c Str.newline).

(** [$] without [re.MULTILINE]: the end of the string, or just before a
    newline that ends the string. *)
Definition at_dollar (rest : string) : bool :=
  match rest with
  | EmptyString => true
  | String c EmptyString => Str.chr_eqb c Str.newline
  | _ => false
  end.

(** [github_regex.match(s)]: the pattern is [^], one or more characters
    other than [/] (group [organization]), a [/], one or more characters
    other than [:] (group [name]), a [:], any number of [.] (group
    [branch]), and [$].  The result is the three groups of the match, or
    [None] when there is no match.  Each repetition is followed by a
    character outside its class (or by [$]), so the greedy match is the
    only candidate. *)
Definition github_regex_match (s : string) : option (string * string * string) :=
  match Str.span not_slash s with
  | (String o os, String _ r1) =>
      match Str.span not_colon r1 with
      | (String n ns', String _ r2) =>
          let (b, r3) := Str.span dot r2 in
          if at_dollar r3 then Some (String o os, String n ns', b) else None
      | _ => None
      end
  | _ => None
  end.

End Regex.

Definition only_github_msg : string :=
  "Only GitHub URLs are supported right now".

Definition bad_format_msg : string :=
  "GitHub branch value must be in the form <user or organization>/<repo>:<branch>".

Definition github_prefix : string := "https://github.com/".

(** [parse_github_branch]; its first argument is the validator of
    bracketed hosts that [urlparse] calls. *)
Definition parse_github_branch
    (check_bracketed_netloc : string -> option string)
    (repository_string : string) : result GitHubBranch :=
  match Urllib.urlparse check_bracketed_netloc repository_string with
  | Raise e => Raise e
  | Ok u =>
      if negb (Str.is_empty (scheme u)) && negb (String.eqb (netloc u) "github.com")
      then Raise (ValueError only_github_msg)
      else
        let repository_string := Str.removeprefix github_prefix repository_string in
        match Regex.github_regex_match repository_string with
        | None => Raise (ValueError bad_format_msg)
        | Some (organization, name, branch) =>
            Ok (mkGitHubBranch
                  (github_prefix ++ organization ++ "/" ++ name)
                  organization name branch)
        end
  end.

(** A validator that accepts no bracketed host, for the concrete inputs
    below (none of them has a bracket). *)
Definition no_bracketed_host (n : string) : option string :=
  Some "Invalid IPv6 URL".


(** ** Truthiness

    [all(...)] in [__init__] tests the truth value of each argument:
    [None] is false, an [int] is true unless it is zero, a [bytes] is true
    unless it is empty, and an instance of a dataclass that defines neither
    [__bool__] nor [__len__] is true. *)

Definition bytes : Type := list Byte.byte.

Class Truthy (A : Type) : Type := truth : A -> bool.

#[export] Instance Truthy_int : Truthy Z := fun z => negb (Z.eqb z 0).

#[export] Instance Truthy_bytes : Truthy bytes :=
  fun b => match b with [] => false | _ :: _ => true end.

#[export] Instance Truthy_GitHubBranch : Truthy GitHubBranch := fun _ => true.

#[export] Instance Truthy_Optional (A : Type) `{Truthy A} : Truthy (option A) :=
  fun o => match o with None => false | Some a => truth a end.

(** ** The API client

    [Github] objects are told apart by [gh_object], the identity of the
    object; [gh_auth] is the token given to [Auth.Token].  [Auth.Token]
    asserts that its argument is a string, so no object is built from
    [None]. *)

Record Github : Type := mkGithub {
  gh_object : nat;
  gh_auth : option string
}.

(** What the provider does to the outside, most recent first. *)
Inductive event : Type :=
| LogInfo (msg : string)
| LogError (msg : string)
| GetRepoInstallation (app_id : Z) (app_key : bytes) (owner repo : string)
    (reply : result Z)
| GetAccessToken (app_id : Z) (app_key : bytes) (installation_id : Z)
    (reply : result string)
| NewGithub (gh : Github).

Definition World : Type := list event.

(** The two remote calls of a [GithubIntegration] built from
    [Auth.AppAuth(app_id, app_key)].  Each reply may depend on what has
    happened so far, and either call may raise. *)
Record GithubIntegration : Type := mkGithubIntegration {
  get_repo_installation : World -> Z -> bytes -> string -> string -> result Z;
  get_access_token : World -> Z -> bytes -> Z -> result string
}.

Definition is_token_request (e : event) : bool :=
  match e with GetAccessToken _ _ _ _ => true | _ => false end.

Definition is_token_minted (e : event) : bool :=
  match e with GetAccessToken _ _ _ (Ok _) => true | _ => false end.

(** The number of calls of [get_access_token], and the number of them that
    returned a token. *)
Definition token_requests (w : World) : nat :=
  List.length (List.filter is_token_request w).

Definition tokens_minted (w : World) : nat :=
  List.length (List.filter is_token_minted w).

(** [Github(auth=Auth.Token(token))]: a new object for a token that is a
    string; for [None] the assertion of [Auth.Token] fails and nothing is
    built. *)
Definition new_Github (token : option string) (w : World)
  : result Github * World :=
  match token with
  | None => (Raise (AssertionError ""), w)
  | Some _ =>
      let gh := mkGithub (List.length w) token in
      (Ok gh, NewGithub gh :: w)
  end.

(** ** [GitHubAppCredentials] and [GithubAppProvider] *)

Record GitHubAppCredentials : Type := mkGitHubAppCredentials {
  app_id : Z;
  app_key : bytes;
  github_branch : GitHubBranch
}.

(** The attributes of an instance, and the two entries that
    [cached_property] adds to the instance's dictionary. *)
Record GithubAppProvider : Type := mkGithubAppProvider {
  user_auth : bool;
  user_token : option string;
  _app_credentials : option GitHubAppCredentials;
  _cloner_app_credentials : option GitHubAppCredentials;
  _app_token : option string;
  _cloner_token : option string;
  cached_github_app : option Github;
  cached_github_cloner_app : option Github
}.

Definition set_app_token (t : option string) (p : GithubAppProvider) :=
  mkGithubAppProvider (user_auth p) (user_token p) (_app_credentials p)
    (_cloner_app_credentials p) t (_cloner_token p)
    (cached_github_app p) (cached_github_cloner_app p).

Definition set_cloner_token (t : option string) (p : GithubAppProvider) :=
  mkGithubAppProvider (user_auth p) (user_token p) (_app_credentials p)
    (_cloner_app_credentials p) (_app_token p) t
    (cached_github_app p) (cached_github_cloner_app p).

Definition set_cached_github_app (g : Github) (p : GithubAppProvider) :=
  mkGithubAppProvider (user_auth p) (user_token p) (_app_credentials p)
    (_cloner_app_credentials p) (_app_token p) (_cloner_token p)
    (Some g) (cached_github_cloner_app p).

Definition set_cached_github_cloner_app (g : Github) (p : GithubAppProvider) :=
  mkGithubAppProvider (user_auth p) (user_token p) (_app_credentials p)
    (_cloner_app_credentials p) (_app_token p) (_cloner_token p)
    (cached_github_app p) (Some g).

Definition credentials_msg : string :=
  "Credentials for both, cloning and pushing app should be provided".

(** [GithubAppProvider.__init__]; the arguments are keyword arguments in
    the source and each of them but [user_auth] defaults to [None]. *)
Definition __init__
    (app_id : option Z) (app_key : option bytes)
    (dest_branch : option GitHubBranch)
    (cloner_id : option Z) (cloner_key : option bytes)
    (rebase_branch : option GitHubBranch)
    (user_auth : bool) (user_token : option string)
  : result GithubAppProvider :=
  let self := mkGithubAppProvider user_auth user_token None None None None
                None None in
  if negb user_auth then
    if negb (truth app_id && truth app_key && truth dest_branch
             && truth cloner_id && truth cloner_key && truth rebase_branch)
    then Raise (ValueError credentials_msg)
    else
      match app_id, app_key, dest_branch, cloner_id, cloner_key, rebase_branch with
      | Some a, Some k, Some d, Some ci, Some ck, Some r =>
          Ok (mkGithubAppProvider user_auth user_token
                (Some (mkGitHubAppCredentials a k d))
                (Some (mkGitHubAppCredentials ci ck r))
                None None None None)
      | _, _, _, _, _, _ =>
          (* not reached: a [None] is not true *)
          Raise (ValueError credentials_msg)
      end
  else Ok self.

Definition get_app_token (self : GithubAppProvider) : option string :=
  if user_auth self then user_token self else _app_token self.

Definition get_cloner_token (self : GithubAppProvider) : option string :=
  if user_auth self then user_token self else _cloner_token self.

Definition not_installed_msg (gh_branch : GitHubBranch) : string :=
  "App has not been authorized by " ++ ns gh_branch ++ ", or repo "
  ++ ns gh_branch ++ "/" ++ name gh_branch ++ " does not exist".

(** [GithubAppProvider._github_login_app].  [gi] is the
    [GithubIntegration] that the method builds from
    [Auth.AppAuth(app_id, app_key)]: the definition describes the runs in
    which these two constructors return (the library may refuse their
    arguments, and then the method raises before any remote call).  The
    cause that [raise ... from err] attaches to the exception is left
    out. *)
Definition _github_login_app (gi : GithubIntegration)
    (credentials : GitHubAppCredentials) (w : World)
  : result (Github * string) * World :=
  let w := LogInfo ("Logging to GitHub as an Application for repository "
                    ++ url (github_branch credentials)) :: w in
  let gh_branch := github_branch credentials in
  let reply := get_repo_installation gi w (app_id credentials)
                 (app_key credentials) (ns gh_branch) (name gh_branch) in
  let w := GetRepoInstallation (app_id credentials) (app_key credentials)
             (ns gh_branch) (name gh_branch) reply :: w in
  match reply with
  | Raise (UnknownObjectException _) =>
      let msg := not_installed_msg gh_branch in
      (Raise (Exception msg), LogError msg :: w)
  | Raise e => (Raise e, w)
  | Ok installation =>
      let reply := get_access_token gi w (app_id credentials)
                     (app_key credentials) installation in
      let w := GetAccessToken (app_id credentials) (app_key credentials)
                 installation reply :: w in
      match reply with
      | Raise e => (Raise e, w)
      | Ok token =>
          match new_Github (Some token) w with
          | (Ok gh_app, w) => (Ok (gh_app, token), w)
          | (Raise e, w) => (Raise e, w)
          end
      end
  end.

Definition _get_github_user_logged_in_app (self : GithubAppProvider)
    (w : World) : result Github * World :=
  let w := LogInfo "Logging to GitHub as a User" :: w in
  new_Github (user_token self) w.

Definition none_credentials_msg : string :=
  "'NoneType' object has no attribute 'github_branch'".

(** The body of the property [github_app]. *)
Definition github_app_body (gi : GithubIntegration)
    (self : GithubAppProvider) (w : World)
  : result Github * GithubAppProvider * World :=
  if user_auth self then
    match _get_github_user_logged_in_app self w with
    | (Ok gh_app, w) => (Ok gh_app, self, w)
    | (Raise e, w) => (Raise e, self, w)
    end
  else
    match _app_credentials self with
    | None => (Raise (AttributeError none_credentials_msg), self, w)
    | Some credentials =>
        match _github_login_app gi credentials w with
        | (Ok (gh_app, token), w) => (Ok gh_app, set_app_token (Some token) self, w)
        | (Raise e, w) => (Raise e, self, w)
        end
    end.

(** The body of the property [github_cloner_app]. *)
Definition github_cloner_app_body (gi : GithubIntegration)
    (self : GithubAppProvider) (w : World)
  : result Github * GithubAppProvider * World :=
  if user_auth self then
    match _get_github_user_logged_in_app self w with
    | (Ok gh_app, w) => (Ok gh_app, self, w)
    | (Raise e, w) => (Raise e, self, w)
    end
  else
    match _cloner_app_credentials self with
    | None => (Raise (AttributeError none_credentials_msg), self, w)
    | Some credentials =>
        match _github_login_app gi credentials w with
        | (Ok (gh_app, token), w) => (Ok gh_app, set_cloner_token (Some token) self, w)
        | (Raise e, w) => (Raise e, self, w)
        end
    end.

(** [functools.cached_property]: the value is looked up in the instance's
    dictionary; when it is not there the body runs, and the value it
    returns is stored.  Nothing is stored when the body raises. *)
Definition cached_property
    (lookup : GithubAppProvider -> option Github)
    (store : Github -> GithubAppProvider -> GithubAppProvider)
    (body : GithubAppProvider -> World -> result Github * GithubAppProvider * World)
    (self : GithubAppProvider) (w : World)
  : result Github * GithubAppProvider * World :=
  match lookup self with
  | Some val => (Ok val, self, w)
  | None =>
      match body self w with
      | (Ok val, self, w) => (Ok val, store val self, w)
      | (Raise e, self, w) => (Raise e, self, w)
      end
  end.

Definition github_app (gi : GithubIntegration) :=
  cached_property cached_github_app set_cached_github_app (github_app_body gi).

Definition github_cloner_app (gi : GithubIntegration) :=
  cached_property cached_github_cloner_app set_cached_github_cloner_app
    (github_cloner_app_body gi).

(** ** Notions used in the statements *)

(** What a match of the pattern is: the subject is an organization without
    [/], a [/], a name without [:], a [:], a branch without newline, and
    possibly one last newline. *)
Definition github_match (s o n b : string) : Prop :=
  o <> "" /\ Str.all Regex.not_slash o = true /\
  n <> "" /\ Str.all Regex.not_colon n = true /\
  Str.all Regex.dot b = true /\
  exists tail, (tail = "" \/ tail = String Str.newline "") /\
               s = o ++ String "/" (n ++ String ":" (b ++ tail)).

(** Characters that [urlsplit] leaves in place in a host. *)
Definition host_char (c : ascii) : bool :=
  negb (Urllib.unsafe_url_byte c) && negb (Urllib.netloc_delim c)
  && negb (Str.chr_eqb c "[") && negb (Str.chr_eqb c "]").

(** The part of [parse_github_branch] that follows the host test. *)
Definition parsed_by_pattern (s : string) : result GitHubBranch :=
  match Regex.github_regex_match s with
  | None => Raise (ValueError bad_format_msg)
  | Some (organization, name, branch) =>
      Ok (mkGitHubBranch (github_prefix ++ organization ++ "/" ++ name)
            organization name branch)
  end.

(** ** Test doubles for the remote API *)

(** The App is installed (installation 42) and every exchange succeeds. *)
Definition mock_installed : GithubIntegration :=
  mkGithubIntegration
    (fun _ _ _ _ _ => Ok 42%Z)
    (fun _ _ _ _ => Ok "ghs_installation_token").

(** The installation lookup reports "not found". *)
Definition mock_not_installed : GithubIntegration :=
  mkGithubIntegration
    (fun _ _ _ _ _ => Raise (UnknownObjectException "Not Found"))
    (fun _ _ _ _ => Ok "ghs_installation_token").

Definition openshift_api : GitHubBranch :=
  mkGitHubBranch "https://github.com/openshift/api" "openshift" "api" "main".

Definition rebase_fork : GitHubBranch :=
  mkGitHubBranch "https://github.com/rebasebot/api" "rebasebot" "api" "rebase".

Definition some_key : bytes := [Byte.x2d; Byte.x2d; Byte.x6b; Byte.x65; Byte.x79].

(** A provider in app mode, and two calls of [github_app] in a row. *)
Definition demo_provider : GithubAppProvider :=
  mkGithubAppProvider false None
    (Some (mkGitHubAppCredentials 1%Z some_key openshift_api))
    (Some (mkGitHubAppCredentials 2%Z some_key rebase_fork))
    None None None None.



(** ** Sequences of accesses

    What a user of a provider does with it: reads of the two properties,
    in any order and any number of times. *)

Inductive access : Type :=
| PrimaryClient   (* [provider.github_app] *)
| ClonerClient.   (* [provider.github_cloner_app] *)

Definition access_step (gi : GithubIntegration) (a : access)
    (p : GithubAppProvider) (w : World)
  : result Github * GithubAppProvider * World :=
  match a with
  | PrimaryClient => github_app gi p w
  | ClonerClient => github_cloner_app gi p w
  end.

(** The accesses of [l] one after the other; an access that raises is
    followed by the next one, as in a caller that catches the exception. *)
Fixpoint run (gi : GithubIntegration) (l : list access)
    (p : GithubAppProvider) (w : World) : GithubAppProvider * World :=
  match l with
  | [] => (p, w)
  | a :: l' =>
      match access_step gi a p w with
      | (_, p', w') => run gi l' p' w'
      end
  end.

Definition is_remote_call (e : event) : bool :=
  match e with
  | GetRepoInstallation _ _ _ _ _ => true
  | GetAccessToken _ _ _ _ => true
  | _ => false
  end.

(** The number of calls of the remote API, of either kind. *)
Definition remote_calls (w : World) : nat :=
  List.length (List.filter is_remote_call w).

(** A slot and its token agree: both empty, or a handle and the token it
    is authenticated with. *)
Definition slot_coherent (slot : option Github) (tok : option string) : Prop :=
  match slot, tok with
  | None, None => True
  | Some h, Some t => gh_auth h = Some t
  | _, _ => False
  end.



(** What holds of a provider in user-token mode whatever has been read so
    far: a handle in a slot is authenticated with the user token. *)
Definition user_mode_ok (p : GithubAppProvider) : Prop :=
  user_auth p = true
  /\ (forall h, cached_github_app p = Some h -> gh_auth h = user_token p)
  /\ (forall h, cached_github_cloner_app p = Some h -> gh_auth h = user_token p).

(** A remote API whose lookup fails with an error other than "not found". *)
Definition mock_lookup_fails : GithubIntegration :=
  mkGithubIntegration
    (fun _ _ _ _ _ => Raise (GithubException "502 Bad Gateway"))
    (fun _ _ _ _ => Ok "ghs_installation_token").

(** A remote API whose token exchange fails. *)
Definition mock_exchange_fails : GithubIntegration :=
  mkGithubIntegration
    (fun _ _ _ _ _ => Ok 42%Z)
    (fun _ _ _ _ => Raise (GithubException "502 Bad Gateway")).



Definition demo_user_provider : GithubAppProvider :=
  mkGithubAppProvider true (Some "ghp_user_token") None None None None None None.

(** * Properties *)

(** ** Strings *)

Section StrFacts.

Variable p : ascii -> bool.

Lemma app_nil_r (s : string) : s ++ "" = s.
Proof. induction s as [|c s IH]; simpl; [reflexivity | now rewrite IH]. Qed.

Lemma all_app (a b : string) :
  Str.all p (a ++ b) = Str.all p a && Str.all p b.
Proof.
  induction a as [|x a IH]; simpl; [reflexivity|].
  rewrite IH. apply andb_assoc.
Qed.

Lemma span_eq (s a b : string) : Str.span p s = (a, b) -> s = a ++ b.
Proof.
  revert a b. induction s as [|c s IH]; simpl; intros a b H.
  - now inversion H.
  - destruct (p c).
    + destruct (Str.span p s) as [x y]. inversion H; subst. simpl.
      f_equal. now apply IH.
    + now inversion H.
Qed.

Lemma span_all (s a b : string) : Str.span p s = (a, b) -> Str.all p a = true.
Proof.
  revert a b. induction s as [|c s IH]; simpl; intros a b H.
  - now inversion H.
  - destruct (p c) eqn:Hc.
    + destruct (Str.span p s) as [x y]. inversion H; subst. simpl.
      rewrite Hc. simpl. now apply (IH x b).
    + now inversion H.
Qed.

Lemma span_stop (s a r : string) (c : ascii) :
  Str.span p s = (a, String c r) -> p c = false.
Proof.
  revert a. induction s as [|d s IH]; simpl; intros a H.
  - inversion H.
  - destruct (p d) eqn:Hd.
    + destruct (Str.span p s) as [x y]. inversion H; subst. now apply (IH x).
    + inversion H; subst. exact Hd.
Qed.

Lemma span_app (a s : string) :
  Str.all p a = true ->
  Str.span p (a ++ s) = (a ++ fst (Str.span p s), snd (Str.span p s)).
Proof.
  induction a as [|x a IH]; simpl; intros H.
  - now destruct (Str.span p s).
  - apply andb_true_iff in H. destruct H as [Hx Ha]. rewrite Hx.
    rewrite (IH Ha). reflexivity.
Qed.

Lemma span_app_stop (a r : string) (c : ascii) :
  Str.all p a = true -> p c = false ->
  Str.span p (a ++ String c r) = (a, String c r).
Proof.
  intros Ha Hc. rewrite span_app by exact Ha. simpl. rewrite Hc. simpl.
  now rewrite app_nil_r.
Qed.

Lemma remove_app (a b : string) :
  Str.remove p (a ++ b) = Str.remove p a ++ Str.remove p b.
Proof.
  induction a as [|x a IH]; simpl; [reflexivity|].
  destruct (p x); simpl; now rewrite IH.
Qed.

Lemma remove_keep (c : ascii) (a : string) :
  p c = false -> Str.remove p (String c a) = String c (Str.remove p a).
Proof. intros H. simpl. now rewrite H. Qed.

Lemma remove_none (a : string) :
  Str.all (fun c => negb (p c)) a = true -> Str.remove p a = a.
Proof.
  induction a as [|x a IH]; simpl; intros H; [reflexivity|].
  apply andb_true_iff in H. destruct H as [Hx Ha].
  destruct (p x); [discriminate|]. now rewrite (IH Ha).
Qed.

Lemma all_remove (q : ascii -> bool) (a : string) :
  Str.all p a = true -> Str.all p (Str.remove q a) = true.
Proof.
  induction a as [|x a IH]; simpl; intros H; [reflexivity|].
  apply andb_true_iff in H. destruct H as [Hx Ha].
  destruct (q x); simpl; [now apply IH|]. rewrite Hx. now apply IH.
Qed.

End StrFacts.

Lemma all_impl (p q : ascii -> bool) (a : string) :
  (forall c, p c = true -> q c = true) ->
  Str.all p a = true -> Str.all q a = true.
Proof.
  intros Hpq. induction a as [|x a IH]; simpl; intros H; [reflexivity|].
  apply andb_true_iff in H. destruct H as [Hx Ha].
  rewrite (Hpq _ Hx). now apply IH.
Qed.

Lemma all_contains (c : ascii) (a : string) :
  Str.all (fun d => negb (Str.chr_eqb d c)) a = true ->
  Str.contains c a = false.
Proof.
  induction a as [|x a IH]; simpl; intros H; [reflexivity|].
  apply andb_true_iff in H. destruct H as [Hx Ha].
  unfold Str.chr_eqb in *. rewrite Ascii.eqb_sym.
  apply negb_true_iff in Hx. rewrite Hx. now apply IH.
Qed.

Lemma contains_all (c : ascii) (a : string) :
  Str.contains c a = false ->
  Str.all (fun d => negb (Str.chr_eqb d c)) a = true.
Proof.
  induction a as [|x a IH]; simpl; intros H; [reflexivity|].
  apply orb_false_iff in H. destruct H as [Hx Ha].
  unfold Str.chr_eqb in *. rewrite Ascii.eqb_sym, Hx. now apply IH.
Qed.

Lemma strip_prefix_app (pre s : string) :
  Str.strip_prefix pre (pre ++ s) = Some s.
Proof.
  induction pre as [|x pre IH]; simpl; [reflexivity|].
  unfold Str.chr_eqb. now rewrite Ascii.eqb_refl.
Qed.

Lemma removeprefix_app (pre s : string) :
  Str.removeprefix pre (pre ++ s) = s.
Proof. unfold Str.removeprefix. now rewrite strip_prefix_app. Qed.

Lemma strip_prefix_eq (pre s t : string) :
  Str.strip_prefix pre s = Some t -> s = pre ++ t.
Proof.
  revert s. induction pre as [|x pre IH]; simpl; intros s H.
  - now inversion H.
  - destruct s as [|y s]; [discriminate|].
    unfold Str.chr_eqb in H. destruct (Ascii.eqb_spec x y); [|discriminate].
    subst. f_equal. now apply IH.
Qed.

(** ** The pattern of [parse_github_branch] *)

Lemma at_dollar_inv (r : string) :
  Regex.at_dollar r = true -> r = "" \/ r = String Str.newline "".
Proof.
  destruct r as [|c [|d r]]; simpl; intros H; try discriminate.
  - now left.
  - right. unfold Str.chr_eqb in H. apply Ascii.eqb_eq in H. now subst.
Qed.

Lemma github_regex_match_sound (s o n b : string) :
  Regex.github_regex_match s = Some (o, n, b) -> github_match s o n b.
Proof.
  unfold Regex.github_regex_match.
  destruct (Str.span Regex.not_slash s) as [o' r1] eqn:E1.
  destruct o' as [|o0 os]; [discriminate|].
  destruct r1 as [|c1 r1]; [discriminate|].
  destruct (Str.span Regex.not_colon r1) as [n' r2] eqn:E2.
  destruct n' as [|n0 ns']; [discriminate|].
  destruct r2 as [|c2 r2]; [discriminate|].
  destruct (Str.span Regex.dot r2) as [b' r3] eqn:E3.
  destruct (Regex.at_dollar r3) eqn:E4; [|discriminate].
  intros H. inversion H; subst. clear H.
  pose proof (span_stop _ _ _ _ _ E1) as S1.
  pose proof (span_stop _ _ _ _ _ E2) as S2.
  unfold Regex.not_slash, Regex.not_colon, Str.chr_eqb in S1, S2.
  apply negb_false_iff, Ascii.eqb_eq in S1.
  apply negb_false_iff, Ascii.eqb_eq in S2. subst c1 c2.
  repeat split.
  - discriminate.
  - exact (span_all _ _ _ _ E1).
  - discriminate.
  - exact (span_all _ _ _ _ E2).
  - exact (span_all _ _ _ _ E3).
  - exists r3. split; [now apply at_dollar_inv|].
    rewrite (span_eq _ _ _ _ E1). f_equal. f_equal.
    rewrite (span_eq _ _ _ _ E2). f_equal. f_equal.
    exact (span_eq _ _ _ _ E3).
Qed.

Lemma github_regex_match_complete (s o n b : string) :
  github_match s o n b -> Regex.github_regex_match s = Some (o, n, b).
Proof.
  intros (Ho & Ao & Hn & An & Ab & tail & Ht & ->).
  unfold Regex.github_regex_match.
  rewrite span_app_stop by (exact Ao || reflexivity).
  destruct o as [|o0 os]; [congruence|].
  rewrite span_app_stop by (exact An || reflexivity).
  destruct n as [|n0 ns']; [congruence|].
  rewrite span_app by exact Ab.
  destruct Ht as [ -> | -> ]; simpl; now rewrite app_nil_r.
Qed.

(** ** [urlparse] on the two accepted shapes *)

Lemma host_char_inv (c : ascii) :
  host_char c = true ->
  Urllib.unsafe_url_byte c = false /\ Urllib.netloc_delim c = false /\
  Str.chr_eqb c "[" = false /\ Str.chr_eqb c "]" = false.
Proof.
  unfold host_char. intros H.
  repeat (apply andb_true_iff in H; destruct H as [H ?]).
  repeat split; now apply negb_true_iff.
Qed.

Lemma host_no_bracket (b : ascii) (h : string) :
  (forall c, host_char c = true -> Str.chr_eqb c b = false) ->
  Str.all host_char h = true -> Str.contains b h = false.
Proof.
  intros Hb Hh. apply all_contains.
  revert Hh. apply all_impl. intros c Hc. now rewrite (Hb c Hc).
Qed.

Lemma urlparse_https (chk : string -> option string) (h rest : string) :
  Str.all host_char h = true ->
  Urllib.urlparse chk ("https://" ++ h ++ String "/" rest)
  = Ok (mkParseResult "https" h).
Proof.
  intros Hh. unfold Urllib.urlparse.
  change (Str.lstrip Urllib.c0_control_or_space ("https://" ++ h ++ String "/" rest))
    with ("https://" ++ h ++ String "/" rest).
  change ("https://" ++ h ++ String "/" rest)
    with ("https://" ++ (h ++ String "/" rest)).
  rewrite remove_app, remove_app.
  rewrite (remove_none Urllib.unsafe_url_byte h)
    by (revert Hh; apply all_impl; intros c Hc; apply host_char_inv in Hc;
        destruct Hc as [-> _]; reflexivity).
  change (Str.remove Urllib.unsafe_url_byte "https://") with "https://".
  change (Str.remove Urllib.unsafe_url_byte (String "/" rest))
    with (String "/" (Str.remove Urllib.unsafe_url_byte rest)).
  set (rest' := Str.remove Urllib.unsafe_url_byte rest).
  change (Urllib.split_scheme ("https://" ++ h ++ String "/" rest'))
    with ("https", String "/" (String "/" (h ++ String "/" rest'))).
  cbv beta iota zeta.
  unfold Urllib.splitnetloc.
  rewrite span_app_stop;
    [| revert Hh; apply all_impl; intros c Hc; apply host_char_inv in Hc;
       destruct Hc as (_ & -> & _); reflexivity
     | reflexivity ].
  simpl fst.
  rewrite (host_no_bracket "[" h), (host_no_bracket "]" h); trivial;
    intros c Hc; apply host_char_inv in Hc; tauto.
Qed.

Lemma control_not_unsafe (c : ascii) :
  Urllib.c0_control_or_space c = false -> Urllib.unsafe_url_byte c = false.
Proof.
  intros H. unfold Urllib.unsafe_url_byte, Str.chr_eqb.
  destruct (Ascii.eqb_spec c Str.tab) as [->|]; [discriminate H|].
  destruct (Ascii.eqb_spec c Str.cr) as [->|]; [discriminate H|].
  destruct (Ascii.eqb_spec c Str.newline) as [->|]; [discriminate H|].
  reflexivity.
Qed.

(** No scheme is found when a [/] comes before the first [:]. *)
Lemma split_scheme_slash (a r : string) :
  Str.all Urllib.not_colon a = true ->
  Urllib.split_scheme (a ++ String "/" r) = ("", a ++ String "/" r).
Proof.
  intros Ha. unfold Urllib.split_scheme.
  rewrite span_app by exact Ha. simpl.
  destruct (Str.span Urllib.not_colon r) as [x y]. simpl.
  destruct (a ++ String "/" x) as [|c0 pre] eqn:E; [reflexivity|].
  destruct y as [|c y]; [reflexivity|].
  assert (Hf : Str.all Urllib.scheme_char (String c0 pre) = false).
  { rewrite <- E, all_app. simpl. now rewrite andb_false_r. }
  simpl in Hf. rewrite Hf. now rewrite andb_false_r.
Qed.

Lemma urlparse_no_scheme (chk : string -> option string)
    (c : ascii) (o rest : string) :
  Urllib.c0_control_or_space c = false ->
  c <> "/"%char ->
  Str.contains ":" (String c o) = false ->
  Urllib.urlparse chk (String c o ++ String "/" rest) = Ok (mkParseResult "" "").
Proof.
  intros Hc Hs Hcolon. unfold Urllib.urlparse. simpl Str.lstrip. rewrite Hc.
  rewrite remove_keep by now apply control_not_unsafe.
  rewrite remove_app, (remove_keep _ "/") by reflexivity.
  set (o' := Str.remove Urllib.unsafe_url_byte o).
  set (rest' := Str.remove Urllib.unsafe_url_byte rest).
  change (String c (o' ++ String "/" rest')) with (String c o' ++ String "/" rest').
  rewrite (split_scheme_slash (String c o') rest').
  - simpl. destruct (Ascii.eqb_spec c "/") as [->|_]; [congruence|].
    destruct c as [[] [] [] [] [] [] [] []]; try reflexivity. congruence.
  - apply contains_all in Hcolon. unfold o'.
    rewrite <- (remove_keep Urllib.unsafe_url_byte c o)
      by now apply control_not_unsafe.
    now apply all_remove.
Qed.

Lemma removeprefix_no_colon (c : ascii) (o rest : string) :
  c <> "/"%char ->
  Str.contains ":" (String c o) = false ->
  Str.removeprefix github_prefix (String c o ++ String "/" rest)
  = String c o ++ String "/" rest.
Proof.
  intros Hs Hcolon. unfold Str.removeprefix.
  destruct (Str.strip_prefix github_prefix (String c o ++ String "/" rest))
    as [t|] eqn:E; [|reflexivity].
  exfalso. apply strip_prefix_eq in E. unfold github_prefix in E.
  destruct o as [|? [|? [|? [|? [|? o]]]]]; simpl in E, Hcolon;
    inversion E; subst; simpl in Hcolon; discriminate.
Qed.

Lemma parse_full_url (chk : string -> option string) (s : string) :
  parse_github_branch chk (github_prefix ++ s) = parsed_by_pattern s.
Proof.
  unfold parse_github_branch.
  change (github_prefix ++ s) with ("https://" ++ "github.com" ++ String "/" s) at 1.
  rewrite urlparse_https by reflexivity. simpl scheme. simpl netloc.
  change (negb (Str.is_empty "https") && negb ("github.com" =? "github.com")%string)
    with false.
  cbv iota. rewrite removeprefix_app. reflexivity.
Qed.

Lemma parse_inv (chk : string -> option string) (s : string) (r : GitHubBranch) :
  parse_github_branch chk s = Ok r ->
  github_match (Str.removeprefix github_prefix s) (ns r) (name r) (branch r)
  /\ url r = github_prefix ++ ns r ++ "/" ++ name r.
Proof.
  unfold parse_github_branch.
  destruct (Urllib.urlparse chk s) as [u|e]; [|discriminate].
  destruct (negb (Str.is_empty (scheme u)) && negb (netloc u =? "github.com")%string);
    [discriminate|].
  cbv zeta.
  destruct (Regex.github_regex_match (Str.removeprefix github_prefix s))
    as [[[o n] b]|] eqn:E; [|discriminate].
  intros H. inversion H; subst; clear H. simpl.
  split; [now apply github_regex_match_sound | reflexivity].
Qed.

(** What [urlparse] finds in the inputs used below. *)
Example urlparse_bare :
  Urllib.urlparse no_bracketed_host "openshift/api:main"
  = Ok (mkParseResult "" "").
Proof. reflexivity. Qed.

Example urlparse_full :
  Urllib.urlparse no_bracketed_host "https://github.com/openshift/api:main"
  = Ok (mkParseResult "https" "github.com").
Proof. reflexivity. Qed.

Example urlparse_schemeless_host :
  Urllib.urlparse no_bracketed_host "gitlab.com/openshift/api:main"
  = Ok (mkParseResult "" "").
Proof. reflexivity. Qed.

Example urlparse_colon_in_owner :
  Urllib.urlparse no_bracketed_host "a:b/c:d" = Ok (mkParseResult "a" "").
Proof. reflexivity. Qed.

Example parse_not_a_valid_string :
  parse_github_branch no_bracketed_host "not-a-valid-string"
  = Raise (ValueError bad_format_msg).
Proof. reflexivity. Qed.

Lemma contains_app_r (c : ascii) (a b : string) :
  Str.contains c (a ++ b) = false -> Str.contains c b = false.
Proof.
  induction a as [|x a IH]; simpl; intros H; [exact H|].
  apply orb_false_iff in H. now apply IH.
Qed.

Lemma contains_removeprefix (c : ascii) (pre s : string) :
  Str.contains c s = false -> Str.contains c (Str.removeprefix pre s) = false.
Proof.
  intros H. unfold Str.removeprefix.
  destruct (Str.strip_prefix pre s) as [t|] eqn:E; [|exact H].
  apply strip_prefix_eq in E. subst s. now apply contains_app_r in H.
Qed.

(** ** [parse_github_branch] *)

(** C2, as the code has it.  An input in which [urlparse] finds a scheme and
    whose netloc is not exactly [github.com] is rejected with the
    "Only GitHub URLs" error, whatever follows; so is every
    [https://<host>/...] with another host.  An input without a scheme is not
    tested for its host: [gitlab.com/openshift/api:main] is parsed, with
    owner [gitlab.com], repository [openshift/api] and branch [main]. *)
Theorem parse_rejects_other_host_of_url (chk : string -> option string) :
  (forall s u,
      Urllib.urlparse chk s = Ok u ->
      scheme u <> "" -> netloc u <> "github.com" ->
      parse_github_branch chk s = Raise (ValueError only_github_msg))
  /\ (forall h rest,
         Str.all host_char h = true -> h <> "github.com" ->
         parse_github_branch chk ("https://" ++ h ++ String "/" rest)
         = Raise (ValueError only_github_msg))
  /\ parse_github_branch chk "gitlab.com/openshift/api:main"
     = Ok (mkGitHubBranch "https://github.com/gitlab.com/openshift/api"
             "gitlab.com" "openshift/api" "main").
Proof.
  assert (G : forall s u,
             Urllib.urlparse chk s = Ok u ->
             scheme u <> "" -> netloc u <> "github.com" ->
             parse_github_branch chk s = Raise (ValueError only_github_msg)).
  { intros s u Hu Hs Hn. unfold parse_github_branch. rewrite Hu.
    destruct (scheme u) as [|c sc]; [congruence|].
    apply String.eqb_neq in Hn. rewrite Hn. reflexivity. }
  split; [exact G|]. split; [|reflexivity].
  intros h rest Hh Hne.
  apply (G _ (mkParseResult "https" h)).
  - now apply urlparse_https.
  - discriminate.
  - exact Hne.
Qed.

Lemma parse_rejects_other_host_of_url_witness :
  parse_github_branch no_bracketed_host "https://gitlab.com/openshift/api:main"
  = Raise (ValueError only_github_msg).
Proof.
  apply (proj1 (parse_rejects_other_host_of_url no_bracketed_host)
           "https://gitlab.com/openshift/api:main"
           (mkParseResult "https" "gitlab.com")).
  - reflexivity.
  - discriminate.
  - discriminate.
Defined.

(** C2 as stated fails: the scheme-less [gitlab.com/openshift/api:main] is
    not rejected. *)
Lemma parse_accepts_schemeless_gitlab :
  parse_github_branch no_bracketed_host "gitlab.com/openshift/api:main"
  = Ok (mkGitHubBranch "https://github.com/gitlab.com/openshift/api"
          "gitlab.com" "openshift/api" "main").
Proof. reflexivity. Qed.

(** C4, as the code has it.  The url, the owner and the repository of a
    parsed reference are not empty, and the url is the prefix followed by
    owner, [/] and repository.  (The branch may be empty.) *)
Theorem parse_url_owner_repo_nonempty
    (chk : string -> option string) (s : string) (r : GitHubBranch) :
  parse_github_branch chk s = Ok r ->
  url r <> "" /\ ns r <> "" /\ name r <> ""
  /\ url r = github_prefix ++ ns r ++ "/" ++ name r.
Proof.
  intros H. apply parse_inv in H. destruct H as [(Ho & _ & Hn & _) Hu].
  repeat split; trivial. rewrite Hu. discriminate.
Qed.

Lemma parse_url_owner_repo_nonempty_witness :
  url openshift_api <> "" /\ ns openshift_api <> "" /\ name openshift_api <> ""
  /\ url openshift_api
     = github_prefix ++ ns openshift_api ++ "/" ++ name openshift_api.
Proof.
  apply (parse_url_owner_repo_nonempty no_bracketed_host "openshift/api:main").
  reflexivity.
Defined.

(** C4 as stated fails: [openshift/api:] is parsed, with an empty branch. *)
Lemma parse_accepts_empty_branch :
  parse_github_branch no_bracketed_host "openshift/api:"
  = Ok (mkGitHubBranch "https://github.com/openshift/api" "openshift" "api" "").
Proof. reflexivity. Qed.

(** C7, as the code has it.  The input (without the prefix) is split at the
    first [:] after the first [/]: the repository has no [:], and the
    branch is all that follows that [:], except a newline that ends the
    input, which is left out; the branch holds no newline.  For an input
    without newline the branch is the whole remainder, and
    [openshift/api:release-4.14:extra] has the branch [release-4.14:extra]. *)
Theorem parse_branch_is_remainder (chk : string -> option string) :
  (forall s r,
      parse_github_branch chk s = Ok r ->
      Str.contains ":" (name r) = false
      /\ Str.contains Str.newline (branch r) = false
      /\ exists tail,
          (tail = "" \/ tail = String Str.newline "")
          /\ Str.removeprefix github_prefix s
             = ns r ++ String "/" (name r ++ String ":" (branch r ++ tail)))
  /\ (forall s r,
         parse_github_branch chk s = Ok r ->
         Str.contains Str.newline s = false ->
         Str.removeprefix github_prefix s
         = ns r ++ String "/" (name r ++ String ":" (branch r)))
  /\ parse_github_branch chk "openshift/api:release-4.14:extra"
     = Ok (mkGitHubBranch "https://github.com/openshift/api" "openshift" "api"
             "release-4.14:extra").
Proof.
  split; [|split; [|reflexivity]].
  - intros s r H. apply parse_inv in H.
    destruct H as [(_ & _ & _ & Hn & Hb & tail & Ht & E) _].
    repeat split.
    + now apply all_contains.
    + now apply all_contains.
    + exists tail. now split.
  - intros s r H Hnl. apply parse_inv in H.
    destruct H as [(_ & _ & _ & _ & _ & tail & Ht & E) _].
    destruct Ht as [ -> | -> ]; [now rewrite app_nil_r in E|].
    exfalso. apply (contains_removeprefix _ github_prefix) in Hnl.
    rewrite E in Hnl.
    change (ns r ++ String "/" (name r ++ String ":" (branch r ++ String Str.newline "")))
      with (ns r ++ (String "/" (name r ++ String ":" (branch r ++ String Str.newline ""))))
      in Hnl.
    apply contains_app_r in Hnl. simpl in Hnl.
    apply contains_app_r in Hnl. simpl in Hnl.
    apply contains_app_r in Hnl. discriminate Hnl.
Qed.

Lemma parse_branch_is_remainder_witness :
  Str.removeprefix github_prefix "https://github.com/openshift/api:release-4.14:extra"
  = "openshift" ++ String "/" ("api" ++ String ":" "release-4.14:extra").
Proof.
  apply (proj1 (proj2 (parse_branch_is_remainder no_bracketed_host))
           "https://github.com/openshift/api:release-4.14:extra"
           (mkGitHubBranch "https://github.com/openshift/api" "openshift" "api"
              "release-4.14:extra")).
  - reflexivity.
  - reflexivity.
Defined.

(** C7 as stated fails: when the input ends with a newline, the branch is
    not the whole remainder. *)
Lemma parse_branch_drops_last_newline :
  parse_github_branch no_bracketed_host
    ("openshift/api:release-4.14:extra" ++ String Str.newline "")
  = Ok (mkGitHubBranch "https://github.com/openshift/api" "openshift" "api"
          "release-4.14:extra")
  /\ "release-4.14:extra" <> "release-4.14:extra" ++ String Str.newline "".
Proof. split; [reflexivity | discriminate]. Qed.

(** C8, as the code has it.  For an owner that is not empty, holds no [:]
    and does not begin with [/], a space or a control character, and for
    every repository and branch, the full-URL form and the bare form have
    the same result (the same reference, or the same error). *)
Theorem parse_full_url_same_as_bare
    (chk : string -> option string) (c : ascii) (o repo branch : string) :
  Urllib.c0_control_or_space c = false ->
  c <> "/"%char ->
  Str.contains ":" (String c o) = false ->
  parse_github_branch chk
    ("https://github.com/" ++ String c o ++ "/" ++ repo ++ ":" ++ branch)
  = parse_github_branch chk (String c o ++ "/" ++ repo ++ ":" ++ branch).
Proof.
  intros Hc Hs Hcolon.
  change ("https://github.com/" ++ String c o ++ "/" ++ repo ++ ":" ++ branch)
    with (github_prefix ++ (String c o ++ "/" ++ repo ++ ":" ++ branch)).
  rewrite parse_full_url.
  change (String c o ++ "/" ++ repo ++ ":" ++ branch)
    with (String c o ++ String "/" (repo ++ ":" ++ branch)).
  unfold parse_github_branch.
  rewrite urlparse_no_scheme by assumption.
  simpl scheme. simpl netloc. cbv beta iota zeta.
  change (negb (Str.is_empty "") && negb ("" =? "github.com")%string) with false.
  cbv iota. rewrite removeprefix_no_colon by assumption. reflexivity.
Qed.

Lemma parse_full_url_same_as_bare_witness :
  parse_github_branch no_bracketed_host "https://github.com/openshift/api:main"
  = parse_github_branch no_bracketed_host "openshift/api:main".
Proof.
  apply (parse_full_url_same_as_bare no_bracketed_host "o" "penshift" "api" "main").
  - reflexivity.
  - discriminate.
  - reflexivity.
Defined.

(** C8 as stated fails: for the owner [a:b] the full-URL form is parsed
    and the bare form is rejected. *)
Lemma parse_full_url_differs_from_bare :
  parse_github_branch no_bracketed_host "https://github.com/a:b/c:d"
  = Ok (mkGitHubBranch "https://github.com/a:b/c" "a:b" "c" "d")
  /\ parse_github_branch no_bracketed_host "a:b/c:d"
     = Raise (ValueError only_github_msg).
Proof. split; reflexivity. Qed.

(** C10.  The owner of a parsed reference is what comes before the first
    [/] of the input without its prefix: the input is the owner, a [/] and
    more, and the owner holds no [/].  The repository may hold one:
    [a/b/c:main] has the owner [a] and the repository [b/c]. *)
Theorem parse_owner_stops_at_first_slash (chk : string -> option string) :
  (forall s r,
      parse_github_branch chk s = Ok r ->
      Str.contains "/" (ns r) = false
      /\ exists rest,
          Str.removeprefix github_prefix s = ns r ++ String "/" rest)
  /\ parse_github_branch chk "a/b/c:main"
     = Ok (mkGitHubBranch "https://github.com/a/b/c" "a" "b/c" "main").
Proof.
  split; [|reflexivity].
  intros s r H. apply parse_inv in H.
  destruct H as [(_ & Ho & _ & _ & _ & tail & _ & E) _].
  split; [now apply all_contains|].
  eexists. exact E.
Qed.

Lemma parse_owner_stops_at_first_slash_witness :
  Str.contains "/" "a" = false
  /\ exists rest, Str.removeprefix github_prefix "a/b/c:main" = "a" ++ String "/" rest.
Proof.
  apply (proj1 (parse_owner_stops_at_first_slash no_bracketed_host)
           "a/b/c:main"
           (mkGitHubBranch "https://github.com/a/b/c" "a" "b/c" "main")).
  reflexivity.
Defined.

(** ** [GithubAppProvider.__init__] *)

Lemma init_app_mode_inv
    (a : option Z) (k : option bytes) (d : option GitHubBranch)
    (ci : option Z) (ck : option bytes) (r : option GitHubBranch)
    (ut : option string) (p : GithubAppProvider) :
  __init__ a k d ci ck r false ut = Ok p ->
  exists a' k' d' ci' ck' r',
    a = Some a' /\ k = Some k' /\ d = Some d'
    /\ ci = Some ci' /\ ck = Some ck' /\ r = Some r'
    /\ p = mkGithubAppProvider false ut
             (Some (mkGitHubAppCredentials a' k' d'))
             (Some (mkGitHubAppCredentials ci' ck' r'))
             None None None None.
Proof.
  unfold __init__. simpl negb. cbv iota.
  destruct (negb _); [discriminate|].
  destruct a as [a'|], k as [k'|], d as [d'|], ci as [ci'|], ck as [ck'|],
           r as [r'|]; try discriminate.
  intros H. inversion H. exists a', k', d', ci', ck', r'. now repeat split.
Qed.

(** C3, as the code has it.  In user-token mode the construction never
    fails, with or without a user token: the provider keeps the token as it
    was given, and both token accessors return that value, which is unset
    when no token was supplied. *)
Theorem init_user_mode_takes_any_token
    (a : option Z) (k : option bytes) (d : option GitHubBranch)
    (ci : option Z) (ck : option bytes) (r : option GitHubBranch)
    (ut : option string) :
  exists p,
    __init__ a k d ci ck r true ut = Ok p
    /\ user_auth p = true /\ user_token p = ut
    /\ get_app_token p = ut /\ get_cloner_token p = ut.
Proof. eexists. split; [reflexivity|]. now repeat split. Qed.

(** C3 as stated fails: the construction in user-token mode without a
    token returns a provider, whose accessors return the unset token. *)
Lemma init_user_mode_without_token :
  __init__ None None None None None None true None
  = Ok (mkGithubAppProvider true None None None None None None None)
  /\ get_app_token (mkGithubAppProvider true None None None None None None None)
     = None
  /\ get_cloner_token (mkGithubAppProvider true None None None None None None None)
     = None.
Proof. repeat split. Qed.

(** C6.  In app mode the construction raises the "Credentials for both"
    error as soon as one of the six credential arguments is missing, and
    returns a provider holding the two credential sets, with both token
    slots and both cache slots empty, when the six are given and valid (ids
    other than zero, keys that are not empty). *)
Theorem init_app_mode_needs_all_six
    (a : option Z) (k : option bytes) (d : option GitHubBranch)
    (ci : option Z) (ck : option bytes) (r : option GitHubBranch)
    (ut : option string) :
  (a = None \/ k = None \/ d = None \/ ci = None \/ ck = None \/ r = None ->
   __init__ a k d ci ck r false ut = Raise (ValueError credentials_msg))
  /\ (forall a' k' d' ci' ck' r',
         a = Some a' -> k = Some k' -> d = Some d' ->
         ci = Some ci' -> ck = Some ck' -> r = Some r' ->
         a' <> 0%Z -> k' <> [] -> ci' <> 0%Z -> ck' <> [] ->
         __init__ a k d ci ck r false ut
         = Ok (mkGithubAppProvider false ut
                 (Some (mkGitHubAppCredentials a' k' d'))
                 (Some (mkGitHubAppCredentials ci' ck' r'))
                 None None None None)).
Proof.
  split.
  - intros H. unfold __init__. simpl negb. cbv iota.
    destruct (negb _); [reflexivity|].
    destruct a, k, d, ci, ck, r; try reflexivity.
    destruct H as [H|[H|[H|[H|[H|H]]]]]; discriminate H.
  - intros a' k' d' ci' ck' r' -> -> -> -> -> -> Ha Hk Hci Hck.
    unfold __init__. simpl negb. cbv iota.
    unfold truth, Truthy_Optional, truth, Truthy_int, Truthy_bytes,
      Truthy_GitHubBranch.
    apply Z.eqb_neq in Ha. apply Z.eqb_neq in Hci. rewrite Ha, Hci.
    destruct k' as [|? ?]; [congruence|].
    destruct ck' as [|? ?]; [congruence|].
    reflexivity.
Qed.

Lemma init_app_mode_needs_all_six_witness :
  __init__ (Some 1%Z) (Some some_key) (Some openshift_api)
           (Some 2%Z) None (Some rebase_fork) false None
  = Raise (ValueError credentials_msg)
  /\ __init__ (Some 1%Z) (Some some_key) (Some openshift_api)
              (Some 2%Z) (Some some_key) (Some rebase_fork) false None
     = Ok (mkGithubAppProvider false None
             (Some (mkGitHubAppCredentials 1%Z some_key openshift_api))
             (Some (mkGitHubAppCredentials 2%Z some_key rebase_fork))
             None None None None).
Proof.
  split.
  - apply (proj1 (init_app_mode_needs_all_six (Some 1%Z) (Some some_key)
                    (Some openshift_api) (Some 2%Z) None (Some rebase_fork) None)).
    right. right. right. right. left. reflexivity.
  - apply (proj2 (init_app_mode_needs_all_six (Some 1%Z) (Some some_key)
                    (Some openshift_api) (Some 2%Z) (Some some_key)
                    (Some rebase_fork) None));
      try reflexivity; discriminate.
Defined.

(** C9.  In app mode an argument that is given but false counts as
    missing: with an id that is zero, or a key that is the empty byte
    string, the construction raises the "Credentials for both" error,
    whatever the other arguments are. *)
Theorem init_app_mode_rejects_falsy
    (a : option Z) (k : option bytes) (d : option GitHubBranch)
    (ci : option Z) (ck : option bytes) (r : option GitHubBranch)
    (ut : option string) :
  a = Some 0%Z \/ k = Some [] \/ ci = Some 0%Z \/ ck = Some [] ->
  __init__ a k d ci ck r false ut = Raise (ValueError credentials_msg).
Proof.
  intros H. unfold __init__. simpl negb. cbv iota.
  destruct (negb _) eqn:E; [reflexivity|].
  exfalso. apply negb_false_iff in E.
  repeat (apply andb_true_iff in E; destruct E as [E ?]).
  destruct H as [ -> | [ -> | [ -> | -> ] ] ]; discriminate.
Qed.

Lemma init_app_mode_rejects_falsy_witness :
  __init__ (Some 0%Z) (Some some_key) (Some openshift_api)
           (Some 2%Z) (Some some_key) (Some rebase_fork) false None
  = Raise (ValueError credentials_msg).
Proof.
  apply init_app_mode_rejects_falsy. left. reflexivity.
Defined.

(** ** The installation-token exchange and the cache *)

Section Exchange.

Variable gi : GithubIntegration.



(** The login when the installation lookup reports "not found". *)
Lemma login_not_installed (c : GitHubAppCredentials) (w : World) (m : string) :
  get_repo_installation gi
    (LogInfo ("Logging to GitHub as an Application for repository "
              ++ url (github_branch c)) :: w)
    (app_id c) (app_key c) (ns (github_branch c)) (name (github_branch c))
  = Raise (UnknownObjectException m) ->
  exists w',
    _github_login_app gi c w
    = (Raise (Exception (not_installed_msg (github_branch c))), w')
    /\ token_requests w' = token_requests w.
Proof.
  intros H. unfold _github_login_app. cbv zeta. rewrite H.
  eexists. split; reflexivity.
Qed.

(** A populated slot answers every later call, and nothing else happens. *)
Lemma github_app_cached (p : GithubAppProvider) (h : Github) (w : World) :
  cached_github_app p = Some h -> github_app gi p w = (Ok h, p, w).
Proof.
  intros H. unfold github_app, cached_property. now rewrite H.
Qed.

(** No operation of the provider empties a populated slot. *)
Lemma github_app_slot_kept (p p' : GithubAppProvider) (h : Github)
    (w w' : World) (r : result Github) :
  cached_github_app p = Some h ->
  github_app gi p w = (r, p', w') \/ github_cloner_app gi p w = (r, p', w') ->
  cached_github_app p' = Some h.
Proof.
  intros H [E|E].
  - rewrite (github_app_cached p h w H) in E. now inversion E; subst.
  - unfold github_cloner_app, cached_property, github_cloner_app_body in E.
    destruct (cached_github_cloner_app p).
    + now inversion E; subst.
    + destruct (user_auth p).
      * unfold _get_github_user_logged_in_app, new_Github in E.
        destruct (user_token p); now inversion E; subst.
      * destruct (_cloner_app_credentials p) as [c|].
        -- destruct (_github_login_app gi c w) as [[[g t]|e] w1];
             now inversion E; subst.
        -- now inversion E; subst.
Qed.


End Exchange.






(** C5.  For a provider built in app mode, when the installation lookup
    reports "not found", [github_app] raises [Exception] with the message
    that names the owner and the repository of the destination branch; the
    provider is as it was, the token slot and the cache slot are empty, and
    no token has been asked for. *)
Theorem github_app_not_installed
    (gi : GithubIntegration)
    (a : Z) (k : bytes) (d : GitHubBranch)
    (ci : option Z) (ck : option bytes) (r : option GitHubBranch)
    (ut : option string) (p : GithubAppProvider) (w : World) (m : string) :
  __init__ (Some a) (Some k) (Some d) ci ck r false ut = Ok p ->
  get_repo_installation gi
    (LogInfo ("Logging to GitHub as an Application for repository " ++ url d) :: w)
    a k (ns d) (name d)
  = Raise (UnknownObjectException m) ->
  exists w',
    github_app gi p w
    = (Raise (Exception ("App has not been authorized by " ++ ns d
                         ++ ", or repo " ++ ns d ++ "/" ++ name d
                         ++ " does not exist")),
       p, w')
    /\ _app_token p = None /\ get_app_token p = None
    /\ cached_github_app p = None
    /\ token_requests w' = token_requests w.
Proof.
  intros Hi Hl.
  apply init_app_mode_inv in Hi.
  destruct Hi as (a' & k' & d' & ci' & ck' & r' & Ea & Ek & Ed & _ & _ & _ & Hp).
  inversion Ea; inversion Ek; inversion Ed; subst a' k' d'. clear Ea Ek Ed.
  destruct (login_not_installed gi (mkGitHubAppCredentials a k d) w m Hl)
    as (w' & E & Hq).
  exists w'. subst p.
  unfold github_app, cached_property, github_app_body. simpl.
  simpl in E. rewrite E. now repeat split.
Qed.

Lemma github_app_not_installed_witness :
  exists w',
    github_app mock_not_installed demo_provider []
    = (Raise (Exception ("App has not been authorized by " ++ "openshift"
                         ++ ", or repo " ++ "openshift" ++ "/" ++ "api"
                         ++ " does not exist")),
       demo_provider, w')
    /\ _app_token demo_provider = None /\ get_app_token demo_provider = None
    /\ cached_github_app demo_provider = None
    /\ token_requests w' = token_requests [].
Proof.
  apply (github_app_not_installed mock_not_installed 1%Z some_key openshift_api
           (Some 2%Z) (Some some_key) (Some rebase_fork) None
           demo_provider [] "Not Found").
  - reflexivity.
  - reflexivity.
Defined.


(** * Further properties of the code *)

(** ** [parse_github_branch]: what is accepted, what is rejected *)

Lemma str_app_assoc (a b c : string) : (a ++ b) ++ c = a ++ (b ++ c).
Proof. induction a as [|x a IH]; simpl; [reflexivity | now rewrite IH]. Qed.

Lemma contains_app_mid (c : ascii) (a b : string) :
  Str.contains c (a ++ String c b) = true.
Proof.
  induction a as [|x a IH]; simpl.
  - unfold Str.chr_eqb. now rewrite Ascii.eqb_refl.
  - rewrite IH. apply orb_true_r.
Qed.

Lemma contains_app_l (c : ascii) (a b : string) :
  Str.contains c b = true -> Str.contains c (a ++ b) = true.
Proof.
  intros H. induction a as [|x a IH]; simpl; [exact H|].
  rewrite IH. apply orb_true_r.
Qed.

(** [urlparse] raises nothing but [ValueError]. *)
Lemma urlparse_raise (chk : string -> option string) (s : string) (e : exn) :
  Urllib.urlparse chk s = Raise e -> exists msg, e = ValueError msg.
Proof.
  unfold Urllib.urlparse, Urllib.checknetloc.
  destruct (Urllib.split_scheme _) as [sch u].
  destruct u as [|c1 u]; [discriminate|].
  destruct (Ascii.eqb_spec c1 "/") as [->|N1];
    [| destruct c1 as [[] [] [] [] [] [] [] []]; try discriminate; congruence].
  destruct u as [|c2 r]; [discriminate|].
  destruct (Ascii.eqb_spec c2 "/") as [->|N2];
    [| destruct c2 as [[] [] [] [] [] [] [] []]; try discriminate; congruence].
  destruct (_ || _).
  - intros H. inversion H. eauto.
  - destruct (andb _ _); [destruct (chk _)|]; try discriminate.
    intros H. inversion H. eauto.
Qed.

Lemma parse_raise (chk : string -> option string) (s : string) (e : exn) :
  parse_github_branch chk s = Raise e -> exists msg, e = ValueError msg.
Proof.
  unfold parse_github_branch.
  destruct (Urllib.urlparse chk s) as [u|e'] eqn:E.
  - destruct (negb _ && negb _).
    + intros H. inversion H. eauto.
    + cbv zeta. destruct (Regex.github_regex_match _) as [[[o n] b]|].
      * discriminate.
      * intros H. inversion H. eauto.
  - intros H. inversion H; subst. now apply urlparse_raise in E.
Qed.

(** The bare form of an owner in which [urlparse] finds no scheme goes to
    the pattern as it is. *)
Lemma parse_bare (chk : string -> option string)
    (c : ascii) (o rest : string) :
  Urllib.c0_control_or_space c = false ->
  c <> "/"%char ->
  Str.contains ":" (String c o) = false ->
  parse_github_branch chk (String c o ++ String "/" rest)
  = parsed_by_pattern (String c o ++ String "/" rest).
Proof.
  intros Hc Hs Hcolon. unfold parse_github_branch.
  rewrite urlparse_no_scheme by assumption.
  simpl scheme. simpl netloc.
  change (negb (Str.is_empty "") && negb ("" =? "github.com")%string) with false.
  cbv iota beta zeta. rewrite removeprefix_no_colon by assumption. reflexivity.
Qed.

Lemma pattern_of_segments (o n b : string) :
  o <> "" -> Str.contains "/" o = false ->
  n <> "" -> Str.contains ":" n = false ->
  Str.contains Str.newline b = false ->
  parsed_by_pattern (o ++ String "/" (n ++ String ":" b))
  = Ok (mkGitHubBranch (github_prefix ++ o ++ "/" ++ n) o n b).
Proof.
  intros Ho So Hn Sn Sb. unfold parsed_by_pattern.
  rewrite (github_regex_match_complete _ o n b); [reflexivity|].
  repeat split; trivial; try now apply contains_all.
  exists "". split; [now left | now rewrite app_nil_r].
Qed.

(** X1.  Round trip: the url of a parsed reference, a [:] and its branch
    parse to that same reference. *)
Theorem parse_url_branch_roundtrip
    (chk : string -> option string) (s : string) (r : GitHubBranch) :
  parse_github_branch chk s = Ok r ->
  parse_github_branch chk (url r ++ ":" ++ branch r) = Ok r.
Proof.
  intros H. apply parse_inv in H.
  destruct H as [(Ho & Ao & Hn & An & Ab & _) Hu].
  destruct r as [u o n b]. cbn [url ns name branch] in *. subst u.
  rewrite str_app_assoc.
  replace ((o ++ "/" ++ n) ++ ":" ++ b) with (o ++ String "/" (n ++ String ":" b)).
  - rewrite parse_full_url.
    apply pattern_of_segments; trivial; now apply all_contains.
  - rewrite str_app_assoc. reflexivity.
Qed.

Lemma parse_url_branch_roundtrip_witness :
  parse_github_branch no_bracketed_host (url openshift_api ++ ":" ++ branch openshift_api)
  = Ok openshift_api.
Proof.
  apply (parse_url_branch_roundtrip no_bracketed_host "openshift/api:main").
  reflexivity.
Defined.

(** X2.  A well-formed input is parsed into its own segments.  When the
    owner is not empty and holds no [/], the repository is not empty and
    holds no [:], and the branch holds no newline, the full-URL form gives
    url, owner, repository and branch as written; the bare form does too
    when, besides, the owner holds no [:] and does not begin with a space
    or a control character. *)
Theorem parse_well_formed
    (chk : string -> option string) (c : ascii) (o repo br : string) :
  Str.contains "/" (String c o) = false ->
  repo <> "" -> Str.contains ":" repo = false ->
  Str.contains Str.newline br = false ->
  parse_github_branch chk
    ("https://github.com/" ++ String c o ++ "/" ++ repo ++ ":" ++ br)
  = Ok (mkGitHubBranch ("https://github.com/" ++ String c o ++ "/" ++ repo)
          (String c o) repo br)
  /\ (Urllib.c0_control_or_space c = false ->
      Str.contains ":" (String c o) = false ->
      parse_github_branch chk (String c o ++ "/" ++ repo ++ ":" ++ br)
      = Ok (mkGitHubBranch ("https://github.com/" ++ String c o ++ "/" ++ repo)
              (String c o) repo br)).
Proof.
  intros So Hn Sn Sb.
  assert (P : parsed_by_pattern (String c o ++ String "/" (repo ++ String ":" br))
              = Ok (mkGitHubBranch (github_prefix ++ String c o ++ "/" ++ repo)
                      (String c o) repo br))
    by (apply pattern_of_segments; trivial; discriminate).
  split.
  - change ("https://github.com/" ++ String c o ++ "/" ++ repo ++ ":" ++ br)
      with (github_prefix ++ (String c o ++ String "/" (repo ++ String ":" br))).
    rewrite parse_full_url. exact P.
  - intros Hc Hcolon.
    change (String c o ++ "/" ++ repo ++ ":" ++ br)
      with (String c o ++ String "/" (repo ++ String ":" br)).
    rewrite parse_bare; trivial.
    intros ->. simpl in So. discriminate So.
Qed.

Lemma parse_well_formed_witness :
  parse_github_branch no_bracketed_host "https://github.com/openshift/api:main"
  = Ok openshift_api
  /\ parse_github_branch no_bracketed_host "openshift/api:main" = Ok openshift_api.
Proof.
  destruct (parse_well_formed no_bracketed_host "o" "penshift" "api" "main")
    as [F B]; try reflexivity; try discriminate.
  split; [exact F | apply B; reflexivity].
Defined.

(** X3.  An input without [:] or without [/] is rejected, and a rejection
    is always a [ValueError]. *)
Theorem parse_needs_slash_and_colon
    (chk : string -> option string) (s : string) :
  Str.contains ":" s = false \/ Str.contains "/" s = false ->
  exists msg, parse_github_branch chk s = Raise (ValueError msg).
Proof.
  intros H.
  destruct (parse_github_branch chk s) as [r|e] eqn:E.
  - exfalso. apply parse_inv in E.
    destruct E as [(_ & _ & _ & _ & _ & tail & _ & E) _].
    assert (S1 : Str.contains "/" (Str.removeprefix github_prefix s) = true)
      by (rewrite E; apply contains_app_mid).
    assert (S2 : Str.contains ":" (Str.removeprefix github_prefix s) = true).
    { rewrite E. apply contains_app_l.
      change (String "/" (name r ++ String ":" (branch r ++ tail)))
        with (String "/" (name r) ++ String ":" (branch r ++ tail)).
      apply contains_app_mid. }
    destruct H as [H|H];
      apply (contains_removeprefix _ github_prefix) in H; congruence.
  - destruct (parse_raise chk s e E) as [msg ->]. now exists msg.
Qed.

Lemma parse_needs_slash_and_colon_witness :
  exists msg,
    parse_github_branch no_bracketed_host "openshift/api" = Raise (ValueError msg).
Proof.
  apply parse_needs_slash_and_colon. left. reflexivity.
Defined.

Lemma urlparse_http (chk : string -> option string) (h rest : string) :
  Str.all host_char h = true ->
  Urllib.urlparse chk ("http://" ++ h ++ String "/" rest)
  = Ok (mkParseResult "http" h).
Proof.
  intros Hh. unfold Urllib.urlparse.
  change (Str.lstrip Urllib.c0_control_or_space ("http://" ++ h ++ String "/" rest))
    with ("http://" ++ (h ++ String "/" rest)).
  rewrite remove_app, remove_app.
  rewrite (remove_none Urllib.unsafe_url_byte h)
    by (revert Hh; apply all_impl; intros c Hc; apply host_char_inv in Hc;
        destruct Hc as [-> _]; reflexivity).
  change (Str.remove Urllib.unsafe_url_byte "http://") with "http://".
  change (Str.remove Urllib.unsafe_url_byte (String "/" rest))
    with (String "/" (Str.remove Urllib.unsafe_url_byte rest)).
  set (rest' := Str.remove Urllib.unsafe_url_byte rest).
  change (Urllib.split_scheme ("http://" ++ h ++ String "/" rest'))
    with ("http", String "/" (String "/" (h ++ String "/" rest'))).
  cbv beta iota zeta.
  unfold Urllib.splitnetloc.
  rewrite span_app_stop;
    [| revert Hh; apply all_impl; intros c Hc; apply host_char_inv in Hc;
       destruct Hc as (_ & -> & _); reflexivity
     | reflexivity ].
  simpl fst.
  rewrite (host_no_bracket "[" h), (host_no_bracket "]" h); trivial;
    intros c Hc; apply host_char_inv in Hc; tauto.
Qed.

(** X4.  Only the literal [https://github.com/] is taken off the input.
    An [http://github.com/...] input passes the host test with its prefix
    in place, so the pattern reads [http:] as the owner and
    [/github.com/...] as the repository. *)
Theorem parse_http_url_keeps_prefix
    (chk : string -> option string) (path br : string) :
  Str.contains ":" path = false ->
  Str.contains Str.newline br = false ->
  parse_github_branch chk ("http://github.com/" ++ path ++ ":" ++ br)
  = Ok (mkGitHubBranch ("https://github.com/http://github.com/" ++ path)
          "http:" ("/github.com/" ++ path) br).
Proof.
  intros Hp Hb. unfold parse_github_branch.
  change ("http://github.com/" ++ path ++ ":" ++ br)
    with ("http://" ++ "github.com" ++ String "/" (path ++ ":" ++ br)) at 1.
  rewrite urlparse_http by reflexivity. simpl scheme. simpl netloc.
  change (negb (Str.is_empty "http") && negb ("github.com" =? "github.com")%string)
    with false.
  cbv iota beta zeta.
  change (Str.removeprefix github_prefix ("http://github.com/" ++ path ++ ":" ++ br))
    with ("http:" ++ String "/" ("/github.com/" ++ path ++ String ":" br)).
  rewrite <- (str_app_assoc "/github.com/" path (String ":" br)).
  change (match Regex.github_regex_match
                  ("http:" ++ String "/" (("/github.com/" ++ path) ++ String ":" br))
          with
          | Some (organization, name, branch) =>
              Ok (mkGitHubBranch (github_prefix ++ organization ++ "/" ++ name)
                    organization name branch)
          | None => Raise (ValueError bad_format_msg)
          end)
    with (parsed_by_pattern
            ("http:" ++ String "/" (("/github.com/" ++ path) ++ String ":" br))).
  rewrite pattern_of_segments; trivial; discriminate.
Qed.

Lemma parse_http_url_keeps_prefix_witness :
  parse_github_branch no_bracketed_host "http://github.com/openshift/api:main"
  = Ok (mkGitHubBranch "https://github.com/http://github.com/openshift/api"
          "http:" "/github.com/openshift/api" "main").
Proof.
  apply (parse_http_url_keeps_prefix no_bracketed_host "openshift/api" "main");
    reflexivity.
Defined.

(** ** [__init__]: which constructions return a provider *)

(** X5.  The construction returns a provider exactly when [user_auth] is
    set, or each id is given and not zero, each key is given and not empty,
    and both branches are given. *)
Theorem init_returns_iff
    (a : option Z) (k : option bytes) (d : option GitHubBranch)
    (ci : option Z) (ck : option bytes) (r : option GitHubBranch)
    (ua : bool) (ut : option string) :
  (exists p, __init__ a k d ci ck r ua ut = Ok p)
  <-> (ua = true
       \/ exists a' k' d' ci' ck' r',
            a = Some a' /\ k = Some k' /\ d = Some d'
            /\ ci = Some ci' /\ ck = Some ck' /\ r = Some r'
            /\ a' <> 0%Z /\ k' <> [] /\ ci' <> 0%Z /\ ck' <> []).
Proof.
  split.
  - intros [p H]. destruct ua; [now left|right].
    unfold __init__ in H. simpl negb in H. cbv iota in H.
    destruct (negb _) eqn:E; [discriminate|].
    apply negb_false_iff in E.
    repeat (apply andb_true_iff in E; destruct E as [E ?]).
    destruct a as [a'|], k as [k'|], d as [d'|], ci as [ci'|], ck as [ck'|],
             r as [r'|]; try discriminate.
    exists a', k', d', ci', ck', r'.
    repeat split; trivial; intros ->; discriminate.
  - intros [->|(a' & k' & d' & ci' & ck' & r' & -> & -> & -> & -> & -> & ->
                & Ha & Hk & Hci & Hck)].
    + eexists. reflexivity.
    + destruct ua; [eexists; reflexivity|].
      unfold __init__. simpl negb. cbv iota.
      unfold truth, Truthy_Optional, truth, Truthy_int, Truthy_bytes,
        Truthy_GitHubBranch.
      apply Z.eqb_neq in Ha. apply Z.eqb_neq in Hci. rewrite Ha, Hci.
      destruct k' as [|? ?]; [congruence|].
      destruct ck' as [|? ?]; [congruence|].
      eexists. reflexivity.
Qed.

(** ** The two slots *)

Section Slots.

Variable gi : GithubIntegration.

Lemma github_cloner_app_cached (p : GithubAppProvider) (h : Github) (w : World) :
  cached_github_cloner_app p = Some h -> github_cloner_app gi p w = (Ok h, p, w).
Proof.
  intros H. unfold github_cloner_app, cached_property. now rewrite H.
Qed.


(** The first read of either property in user-token mode, with a token. *)
Lemma github_app_user (p : GithubAppProvider) (w : World) (t : string) :
  user_auth p = true ->
  user_token p = Some t ->
  cached_github_app p = None ->
  github_app gi p w
  = (Ok (mkGithub (S (List.length w)) (Some t)),
     set_cached_github_app (mkGithub (S (List.length w)) (Some t)) p,
     NewGithub (mkGithub (S (List.length w)) (Some t))
       :: LogInfo "Logging to GitHub as a User" :: w).
Proof.
  intros Hu Ht Hs.
  unfold github_app, cached_property, github_app_body,
    _get_github_user_logged_in_app, new_Github.
  now rewrite Hs, Hu, Ht.
Qed.

Lemma github_cloner_app_user (p : GithubAppProvider) (w : World) (t : string) :
  user_auth p = true ->
  user_token p = Some t ->
  cached_github_cloner_app p = None ->
  github_cloner_app gi p w
  = (Ok (mkGithub (S (List.length w)) (Some t)),
     set_cached_github_cloner_app (mkGithub (S (List.length w)) (Some t)) p,
     NewGithub (mkGithub (S (List.length w)) (Some t))
       :: LogInfo "Logging to GitHub as a User" :: w).
Proof.
  intros Hu Ht Hs.
  unfold github_cloner_app, cached_property, github_cloner_app_body,
    _get_github_user_logged_in_app, new_Github.
  now rewrite Hs, Hu, Ht.
Qed.

(** The same reads without a token: nothing is built and nothing cached. *)
Lemma github_app_user_none (p : GithubAppProvider) (w : World) :
  user_auth p = true ->
  user_token p = None ->
  cached_github_app p = None ->
  github_app gi p w
  = (Raise (AssertionError ""), p, LogInfo "Logging to GitHub as a User" :: w).
Proof.
  intros Hu Ht Hs.
  unfold github_app, cached_property, github_app_body,
    _get_github_user_logged_in_app, new_Github.
  now rewrite Hs, Hu, Ht.
Qed.

Lemma github_cloner_app_user_none (p : GithubAppProvider) (w : World) :
  user_auth p = true ->
  user_token p = None ->
  cached_github_cloner_app p = None ->
  github_cloner_app gi p w
  = (Raise (AssertionError ""), p, LogInfo "Logging to GitHub as a User" :: w).
Proof.
  intros Hu Ht Hs.
  unfold github_cloner_app, cached_property, github_cloner_app_body,
    _get_github_user_logged_in_app, new_Github.
  now rewrite Hs, Hu, Ht.
Qed.

(** What a read of [github_app] leaves alone. *)
Lemma github_app_frame (p : GithubAppProvider) (w : World) :
  let p' := snd (fst (github_app gi p w)) in
  user_auth p' = user_auth p /\ user_token p' = user_token p
  /\ _app_credentials p' = _app_credentials p
  /\ _cloner_app_credentials p' = _cloner_app_credentials p
  /\ _cloner_token p' = _cloner_token p
  /\ cached_github_cloner_app p' = cached_github_cloner_app p.
Proof.
  unfold github_app, cached_property, github_app_body.
  destruct (cached_github_app p); [now repeat split|].
  destruct (user_auth p) eqn:Hu.
  - unfold _get_github_user_logged_in_app, new_Github.
    destruct (user_token p) eqn:Ht; simpl; rewrite ?Hu, ?Ht; now repeat split.
  - destruct (_app_credentials p) as [c|] eqn:Hc;
      [|simpl; rewrite Hu, Hc; now repeat split].
    destruct (_github_login_app gi c w) as [[[g t]|e] w1]; simpl;
      rewrite ?Hu, ?Hc; now repeat split.
Qed.

(** What a read of [github_cloner_app] leaves alone. *)
Lemma github_cloner_app_frame (p : GithubAppProvider) (w : World) :
  let p' := snd (fst (github_cloner_app gi p w)) in
  user_auth p' = user_auth p /\ user_token p' = user_token p
  /\ _app_credentials p' = _app_credentials p
  /\ _cloner_app_credentials p' = _cloner_app_credentials p
  /\ _app_token p' = _app_token p
  /\ cached_github_app p' = cached_github_app p.
Proof.
  unfold github_cloner_app, cached_property, github_cloner_app_body.
  destruct (cached_github_cloner_app p); [now repeat split|].
  destruct (user_auth p) eqn:Hu.
  - unfold _get_github_user_logged_in_app, new_Github.
    destruct (user_token p) eqn:Ht; simpl; rewrite ?Hu, ?Ht; now repeat split.
  - destruct (_cloner_app_credentials p) as [c|] eqn:Hc;
      [|simpl; rewrite Hu, Hc; now repeat split].
    destruct (_github_login_app gi c w) as [[[g t]|e] w1]; simpl;
      rewrite ?Hu, ?Hc; now repeat split.
Qed.

End Slots.

(** X6.  The two properties do not touch each other's slot: a read of
    [github_cloner_app] leaves the primary token, the primary slot and what
    [get_app_token] returns as they were, a read of [github_app] does the
    same for the cloner, and neither changes the mode, the user token or
    the credentials. *)
Theorem slots_are_independent
    (gi : GithubIntegration) (p : GithubAppProvider) (w : World) :
  (let p' := snd (fst (github_cloner_app gi p w)) in
   cached_github_app p' = cached_github_app p
   /\ get_app_token p' = get_app_token p
   /\ user_auth p' = user_auth p /\ user_token p' = user_token p
   /\ _app_credentials p' = _app_credentials p
   /\ _cloner_app_credentials p' = _cloner_app_credentials p)
  /\ (let p' := snd (fst (github_app gi p w)) in
      cached_github_cloner_app p' = cached_github_cloner_app p
      /\ get_cloner_token p' = get_cloner_token p
      /\ user_auth p' = user_auth p /\ user_token p' = user_token p
      /\ _app_credentials p' = _app_credentials p
      /\ _cloner_app_credentials p' = _cloner_app_credentials p).
Proof.
  split; cbv zeta.
  - destruct (github_cloner_app_frame gi p w) as (Hu & Ht & Hc & Hcc & Ha & Hs).
    cbv zeta in *. unfold get_app_token. rewrite Hu, Ht, Ha. now repeat split.
  - destruct (github_app_frame gi p w) as (Hu & Ht & Hc & Hcc & Ha & Hs).
    cbv zeta in *. unfold get_cloner_token. rewrite Hu, Ht, Ha. now repeat split.
Qed.

(** ** User-token mode *)

Lemma user_step (gi : GithubIntegration) (a : access)
    (p p' : GithubAppProvider) (w w' : World) (r : result Github) :
  user_mode_ok p ->
  access_step gi a p w = (r, p', w') ->
  user_mode_ok p' /\ user_token p' = user_token p
  /\ remote_calls w' = remote_calls w.
Proof.
  intros Hp E. pose proof Hp as (Hu & H1 & H2). destruct a; simpl in E.
  - destruct (cached_github_app p) as [h|] eqn:Hs.
    + rewrite (github_app_cached gi p h w Hs) in E. inversion E; subst.
      split; [exact Hp | split; reflexivity].
    + destruct (user_token p) as [t|] eqn:Ht.
      * rewrite (github_app_user gi p w t Hu Ht Hs) in E. inversion E; subst.
        split; [|split; [simpl; now rewrite Ht | reflexivity]].
        split; [exact Hu|]. simpl. rewrite Ht.
        split; [intros h Hh; now inversion Hh | exact H2].
      * rewrite (github_app_user_none gi p w Hu Ht Hs) in E. inversion E; subst.
        split; [exact Hp | split; [now rewrite ?Ht | reflexivity]].
  - destruct (cached_github_cloner_app p) as [h|] eqn:Hs.
    + rewrite (github_cloner_app_cached gi p h w Hs) in E. inversion E; subst.
      split; [exact Hp | split; reflexivity].
    + destruct (user_token p) as [t|] eqn:Ht.
      * rewrite (github_cloner_app_user gi p w t Hu Ht Hs) in E.
        inversion E; subst.
        split; [|split; [simpl; now rewrite Ht | reflexivity]].
        split; [exact Hu|]. simpl. rewrite Ht.
        split; [exact H1 | intros h Hh; now inversion Hh].
      * rewrite (github_cloner_app_user_none gi p w Hu Ht Hs) in E.
        inversion E; subst.
        split; [exact Hp | split; [now rewrite ?Ht | reflexivity]].
Qed.

Lemma user_run (gi : GithubIntegration) (l : list access) :
  forall (p p' : GithubAppProvider) (w w' : World),
    user_mode_ok p ->
    run gi l p w = (p', w') ->
    user_mode_ok p' /\ user_token p' = user_token p
    /\ remote_calls w' = remote_calls w.
Proof.
  induction l as [|a l IH]; intros p p' w w' Hp E; simpl in E.
  - inversion E; subst. split; [assumption | split; reflexivity].
  - destruct (access_step gi a p w) as [[r p1] w1] eqn:E1.
    destruct (user_step gi a p p1 w w1 r Hp E1) as (Hp1 & Ht1 & Hc1).
    destruct (IH p1 p' w1 w' Hp1 E) as (Hp' & Ht' & Hc').
    split; [exact Hp' | split; congruence].
Qed.

(** X7.  In user-token mode no sequence of reads of the two properties
    calls the remote API: afterwards both token accessors still return the
    user token given to the constructor, and a handle held in either slot
    is authenticated with that token.  The app credentials given to the
    constructor, if any, are not kept. *)
Theorem user_mode_never_calls_remote
    (gi : GithubIntegration)
    (a : option Z) (k : option bytes) (d : option GitHubBranch)
    (ci : option Z) (ck : option bytes) (r : option GitHubBranch)
    (ut : option string) (l : list access)
    (p p' : GithubAppProvider) (w w' : World) :
  __init__ a k d ci ck r true ut = Ok p ->
  run gi l p w = (p', w') ->
  remote_calls w' = remote_calls w
  /\ get_app_token p' = ut /\ get_cloner_token p' = ut
  /\ (forall h, cached_github_app p' = Some h -> gh_auth h = ut)
  /\ (forall h, cached_github_cloner_app p' = Some h -> gh_auth h = ut)
  /\ _app_credentials p = None /\ _cloner_app_credentials p = None.
Proof.
  intros Hi E. unfold __init__ in Hi. simpl in Hi. inversion Hi; subst p. clear Hi.
  assert (Hp : user_mode_ok
                 (mkGithubAppProvider true ut None None None None None None))
    by (repeat split; simpl; discriminate).
  destruct (user_run gi l _ p' w w' Hp E) as ((Hu & H1 & H2) & Ht & Hc).
  simpl in Ht. unfold get_app_token, get_cloner_token. rewrite Hu, Ht.
  repeat split; trivial; intros h Hh; rewrite <- Ht; auto.
Qed.

Lemma user_mode_never_calls_remote_witness :
  remote_calls
    (snd (run mock_installed [PrimaryClient; ClonerClient; PrimaryClient]
            demo_user_provider []))
  = remote_calls []
  /\ get_app_token
       (fst (run mock_installed [PrimaryClient; ClonerClient; PrimaryClient]
               demo_user_provider []))
     = Some "ghp_user_token".
Proof.
  destruct (user_mode_never_calls_remote mock_installed
              (Some 1%Z) (Some some_key) (Some openshift_api) None None None
              (Some "ghp_user_token") [PrimaryClient; ClonerClient; PrimaryClient]
              demo_user_provider
              (fst (run mock_installed [PrimaryClient; ClonerClient; PrimaryClient]
                      demo_user_provider []))
              []
              (snd (run mock_installed [PrimaryClient; ClonerClient; PrimaryClient]
                      demo_user_provider []))
              eq_refl eq_refl) as (H1 & H2 & _).
  split; [exact H1 | exact H2].
Defined.

(** X8.  In user-token mode with a user token that is not empty, the two
    properties return two different handles, each built on its first read
    and both authenticated with the user token; a second read of either
    returns the handle of its own slot. *)
Theorem user_mode_two_handles
    (gi : GithubIntegration)
    (a : option Z) (k : option bytes) (d : option GitHubBranch)
    (ci : option Z) (ck : option bytes) (r : option GitHubBranch)
    (t : string)
    (p p1 p2 : GithubAppProvider) (w w1 w2 : World) (r1 r2 : result Github) :
  t <> "" ->
  __init__ a k d ci ck r true (Some t) = Ok p ->
  github_app gi p w = (r1, p1, w1) ->
  github_cloner_app gi p1 w1 = (r2, p2, w2) ->
  exists h1 h2,
    r1 = Ok h1 /\ r2 = Ok h2
    /\ gh_object h1 <> gh_object h2
    /\ gh_auth h1 = Some t /\ gh_auth h2 = Some t
    /\ github_app gi p2 w2 = (Ok h1, p2, w2)
    /\ github_cloner_app gi p2 w2 = (Ok h2, p2, w2).
Proof.
  intros _ Hi E1 E2. unfold __init__ in Hi. simpl in Hi.
  inversion Hi; subst p. clear Hi.
  rewrite (github_app_user gi _ w t) in E1 by reflexivity.
  inversion E1; subst r1 p1 w1. clear E1.
  rewrite (github_cloner_app_user gi _ _ t) in E2 by reflexivity.
  inversion E2; subst r2 p2 w2. clear E2.
  eexists. eexists. split; [reflexivity|]. split; [reflexivity|].
  simpl. repeat split; trivial. lia.
Qed.

Lemma user_mode_two_handles_witness :
  exists h1 h2,
    fst (fst (github_app mock_installed demo_user_provider [])) = Ok h1
    /\ fst (fst (github_cloner_app mock_installed
                   (snd (fst (github_app mock_installed demo_user_provider [])))
                   (snd (github_app mock_installed demo_user_provider []))))
       = Ok h2
    /\ gh_object h1 <> gh_object h2.
Proof.
  destruct (user_mode_two_handles mock_installed None None None None None None
              "ghp_user_token" demo_user_provider
              (snd (fst (github_app mock_installed demo_user_provider [])))
              (snd (fst (github_cloner_app mock_installed
                           (snd (fst (github_app mock_installed demo_user_provider [])))
                           (snd (github_app mock_installed demo_user_provider [])))))
              []
              (snd (github_app mock_installed demo_user_provider []))
              (snd (github_cloner_app mock_installed
                      (snd (fst (github_app mock_installed demo_user_provider [])))
                      (snd (github_app mock_installed demo_user_provider []))))
              (fst (fst (github_app mock_installed demo_user_provider [])))
              (fst (fst (github_cloner_app mock_installed
                           (snd (fst (github_app mock_installed demo_user_provider [])))
                           (snd (github_app mock_installed demo_user_provider [])))))
              ltac:(discriminate) eq_refl eq_refl eq_refl)
    as (h1 & h2 & H1 & H2 & Hne & _).
  exists h1, h2. repeat split; assumption.
Defined.

(** ** App mode: the cloner identity *)



(** X10.  For a provider built in app mode, when the lookup for the
    cloner reports "not found", [github_cloner_app] raises [Exception]
    with the message that names the owner and the repository of the rebase
    branch (not those of the destination branch); the provider is as it
    was and no token has been asked for. *)
Theorem github_cloner_app_not_installed
    (gi : GithubIntegration)
    (a : option Z) (k : option bytes) (d : option GitHubBranch)
    (ci : Z) (ck : bytes) (r : GitHubBranch)
    (ut : option string) (p : GithubAppProvider) (w : World) (m : string) :
  __init__ a k d (Some ci) (Some ck) (Some r) false ut = Ok p ->
  get_repo_installation gi
    (LogInfo ("Logging to GitHub as an Application for repository " ++ url r) :: w)
    ci ck (ns r) (name r)
  = Raise (UnknownObjectException m) ->
  exists w',
    github_cloner_app gi p w
    = (Raise (Exception ("App has not been authorized by " ++ ns r
                         ++ ", or repo " ++ ns r ++ "/" ++ name r
                         ++ " does not exist")),
       p, w')
    /\ get_cloner_token p = None
    /\ cached_github_cloner_app p = None
    /\ token_requests w' = token_requests w.
Proof.
  intros Hi Hl.
  apply init_app_mode_inv in Hi.
  destruct Hi as (a' & k' & d' & ci' & ck' & r' & _ & _ & _ & Ea & Ek & Ed & Hp).
  inversion Ea; inversion Ek; inversion Ed; subst ci' ck' r'. clear Ea Ek Ed.
  destruct (login_not_installed gi (mkGitHubAppCredentials ci ck r) w m Hl)
    as (w' & E & Hq).
  exists w'. subst p.
  unfold github_cloner_app, cached_property, github_cloner_app_body. simpl.
  simpl in E. rewrite E. now repeat split.
Qed.

Lemma github_cloner_app_not_installed_witness :
  exists w',
    github_cloner_app mock_not_installed demo_provider []
    = (Raise (Exception ("App has not been authorized by " ++ "rebasebot"
                         ++ ", or repo " ++ "rebasebot" ++ "/" ++ "api"
                         ++ " does not exist")),
       demo_provider, w')
    /\ get_cloner_token demo_provider = None
    /\ cached_github_cloner_app demo_provider = None
    /\ token_requests w' = token_requests [].
Proof.
  apply (github_cloner_app_not_installed mock_not_installed
           (Some 1%Z) (Some some_key) (Some openshift_api)
           2%Z some_key rebase_fork None demo_provider [] "Not Found").
  - reflexivity.
  - reflexivity.
Defined.

(** ** App mode: errors of the remote API *)

(** X11.  An error of the installation lookup other than "not found" is
    raised to the caller as it is: no message is built, the provider is as
    it was, nothing is cached and no token has been asked for. *)
Theorem github_app_lookup_error_passes
    (gi : GithubIntegration)
    (a : Z) (k : bytes) (d : GitHubBranch)
    (ci : option Z) (ck : option bytes) (r : option GitHubBranch)
    (ut : option string) (p : GithubAppProvider) (w : World) (e : exn) :
  __init__ (Some a) (Some k) (Some d) ci ck r false ut = Ok p ->
  get_repo_installation gi
    (LogInfo ("Logging to GitHub as an Application for repository " ++ url d) :: w)
    a k (ns d) (name d)
  = Raise e ->
  (forall m, e <> UnknownObjectException m) ->
  exists w',
    github_app gi p w = (Raise e, p, w')
    /\ get_app_token p = None /\ cached_github_app p = None
    /\ remote_calls w' = remote_calls w + 1
    /\ token_requests w' = token_requests w.
Proof.
  intros Hi Hl Hne.
  apply init_app_mode_inv in Hi.
  destruct Hi as (a' & k' & d' & ci' & ck' & r' & Ea & Ek & Ed & _ & _ & _ & Hp).
  inversion Ea; inversion Ek; inversion Ed; subst a' k' d'. clear Ea Ek Ed.
  subst p. unfold github_app, cached_property, github_app_body, _github_login_app.
  cbn [cached_github_app user_auth _app_credentials app_id app_key github_branch].
  cbv zeta. rewrite Hl.
  destruct e as [m|m|m|m|m|m];
    try (eexists; split; [reflexivity|]; split; [reflexivity|];
         split; [reflexivity|]; unfold remote_calls, token_requests; simpl;
         split; lia).
  exfalso. now apply (Hne m).
Qed.

Lemma github_app_lookup_error_passes_witness :
  exists w',
    github_app mock_lookup_fails demo_provider []
    = (Raise (GithubException "502 Bad Gateway"), demo_provider, w')
    /\ get_app_token demo_provider = None
    /\ cached_github_app demo_provider = None
    /\ remote_calls w' = remote_calls [] + 1
    /\ token_requests w' = token_requests [].
Proof.
  apply (github_app_lookup_error_passes mock_lookup_fails
           1%Z some_key openshift_api (Some 2%Z) (Some some_key) (Some rebase_fork)
           None demo_provider []).
  - reflexivity.
  - reflexivity.
  - discriminate.
Defined.

(** X12.  When the installation is found and the token exchange raises,
    the error is raised to the caller as it is, whatever it is; one token
    has been asked for and none obtained, the provider is as it was and
    nothing is cached, so the next read of [github_app] starts the login
    again. *)
Theorem github_app_exchange_error_passes
    (gi : GithubIntegration)
    (a : Z) (k : bytes) (d : GitHubBranch)
    (ci : option Z) (ck : option bytes) (r : option GitHubBranch)
    (ut : option string) (p : GithubAppProvider) (w : World)
    (installation : Z) (e : exn) :
  __init__ (Some a) (Some k) (Some d) ci ck r false ut = Ok p ->
  get_repo_installation gi
    (LogInfo ("Logging to GitHub as an Application for repository " ++ url d) :: w)
    a k (ns d) (name d)
  = Ok installation ->
  get_access_token gi
    (GetRepoInstallation a k (ns d) (name d) (Ok installation)
     :: LogInfo ("Logging to GitHub as an Application for repository " ++ url d)
     :: w)
    a k installation
  = Raise e ->
  exists w',
    github_app gi p w = (Raise e, p, w')
    /\ get_app_token p = None /\ cached_github_app p = None
    /\ token_requests w' = token_requests w + 1
    /\ tokens_minted w' = tokens_minted w
    /\ forall w2,
        github_app gi p w2
        = (let '(res, w3) := _github_login_app gi (mkGitHubAppCredentials a k d) w2 in
           match res with
           | Ok (gh_app, token) =>
               (Ok gh_app,
                set_cached_github_app gh_app (set_app_token (Some token) p), w3)
           | Raise e' => (Raise e', p, w3)
           end).
Proof.
  intros Hi Hl Ht.
  apply init_app_mode_inv in Hi.
  destruct Hi as (a' & k' & d' & ci' & ck' & r' & Ea & Ek & Ed & _ & _ & _ & Hp).
  inversion Ea; inversion Ek; inversion Ed; subst a' k' d'. clear Ea Ek Ed.
  subst p. eexists. split; [|split; [reflexivity|split; [reflexivity|]]].
  - unfold github_app, cached_property, github_app_body, _github_login_app.
    cbn [cached_github_app user_auth _app_credentials app_id app_key github_branch].
    cbv zeta. rewrite Hl, Ht. reflexivity.
  - split; [unfold token_requests; simpl; lia|]. split; [reflexivity|].
    intros w2. unfold github_app, cached_property, github_app_body.
    cbn [cached_github_app user_auth _app_credentials].
    destruct (_github_login_app gi (mkGitHubAppCredentials a k d) w2)
      as [[[g t]|e'] w3]; reflexivity.
Qed.

Lemma github_app_exchange_error_passes_witness :
  exists w',
    github_app mock_exchange_fails demo_provider []
    = (Raise (GithubException "502 Bad Gateway"), demo_provider, w')
    /\ token_requests w' = token_requests [] + 1
    /\ tokens_minted w' = tokens_minted [].
Proof.
  destruct (github_app_exchange_error_passes mock_exchange_fails
              1%Z some_key openshift_api (Some 2%Z) (Some some_key)
              (Some rebase_fork) None demo_provider [] 42%Z
              (GithubException "502 Bad Gateway") eq_refl eq_refl eq_refl)
    as (w' & H1 & _ & _ & H2 & H3 & _).
  exists w'. repeat split; assumption.
Defined.

(** ** App mode: any sequence of reads *)

Lemma coherent_none (tok : option string) :
  slot_coherent None tok -> tok = None.
Proof. destruct tok; simpl; [contradiction | reflexivity]. Qed.




